(** * Smart AI router: budget ledger, routing decision and fallback

    A shallow embedding of [smart_router.py] (class [SmartAIRouter]).

    - Python [str] is modelled by [string], read as UTF-8: [len] counts
      code points; [str.lower] folds the ASCII letters [A-Z] only, so what
      is said about [lower] speaks about ASCII text.
    - Python [float] is modelled by the primitive binary64 floats, with the
      same rounding as the interpreter.
    - The budget file, the two HTTP/API backends and the wall clock are the
      outside world: the ledger file and a trace of calls live in [World],
      the backends' answers, the clock and whether the budget file can be
      opened for writing in [Env].  The budget file, when present, is taken
      to hold a well-formed ledger.
    - Console output ([print]) is not modelled. *)

From Stdlib Require Import Floats Ascii String.
From stdpp Require Import gmap strings list fin_maps sorting pretty.

Local Open Scope string_scope.
Set Warnings "-inexact-float".

(** ** Strings *)

(** [c.lower()] on one ASCII character. *)
Definition lower_ascii (c : ascii) : ascii :=
  let n := nat_of_ascii c in
  if (65 <=? n)%nat && (n <=? 90)%nat then ascii_of_nat (n + 32) else c.

(** [s.lower()]. *)
Fixpoint lower (s : string) : string :=
  match s with
  | EmptyString => EmptyString
  | String c s' => String (lower_ascii c) (lower s')
  end.

(** A UTF-8 continuation byte, [10xxxxxx]. *)
Definition is_continuation (c : ascii) : bool :=
  let n := nat_of_ascii c in (128 <=? n)%nat && (n <? 192)%nat.

(** [len(s)]: the number of code points. *)
Fixpoint len (s : string) : nat :=
  match s with
  | EmptyString => 0
  | String c s' => (if is_continuation c then 0 else 1) + len s'
  end.

(** [kw in s]: [kw] occurs in [s] as a contiguous substring. *)
Fixpoint str_in (kw s : string) : bool :=
  String.prefix kw s ||
  match s with
  | EmptyString => false
  | String _ s' => str_in kw s'
  end.

(** [any(keyword in s for keyword in keywords)]. *)
Definition any_in (keywords : list string) (s : string) : bool :=
  existsb (fun keyword => str_in keyword s) keywords.

(** ** Configuration *)

Record Config := {
  claude_api_key : string;
  ollama_base_url : string;
  monthly_budget : float;
  warning_threshold : float;
  escalation_keywords : list string;
  ollama_keywords : list string;
  cost_per_input_token : float;
  cost_per_output_token : float
}.

(** [default_config] of [load_config]. *)
Definition default_config : Config := {|
  claude_api_key := "";
  ollama_base_url := "http://localhost:11434";
  monthly_budget := 5.0%float;
  warning_threshold := 4.0%float;
  escalation_keywords :=
    ["architecture"; "design"; "system"; "complex"; "ASPICE";
     "compliance"; "review"; "analysis"; "strategy"; "planning"];
  ollama_keywords :=
    ["code"; "refactor"; "test"; "debug"; "simple"; "function";
     "fix"; "error"; "variable"; "loop"; "class"];
  cost_per_input_token := 0.000003%float;
  cost_per_output_token := 0.000015%float
|}.

(** The router object: its configuration and whether [__init__] built a
    paid-API client ([self.claude_client] is not [None]). *)
Record SmartAIRouter := {
  config : Config;
  claude_client : bool
}.

(** [__init__]: the client exists iff the configured key is truthy. *)
Definition init (cfg : Config) : SmartAIRouter :=
  {| config := cfg;
     claude_client := negb (String.eqb (claude_api_key cfg) "") |}.

(** ** Budget ledger *)

Record entry := { spent : float; requests : Z }.

Abbreviation budget_data := (gmap string entry).

Definition zero_entry : entry := {| spent := 0.0%float; requests := 0%Z |}.

(** ** The outside world *)

(** What a backend does with a request: it returns a text, or the call
    raises (connection failure, timeout, non-2xx status, malformed answer). *)
Inductive Reply :=
| Returned (text : string)
| Raised (msg : string).

Record Env := {
  (** [datetime.datetime.now().strftime("%Y-%m")] *)
  now_month : string;
  (** the local inference endpoint, by URL, model and prompt *)
  ollama_api : string -> string -> string -> Reply;
  (** the paid message-completion API, by prompt *)
  claude_api : string -> Reply;
  (** [open(self.budget_file, 'w')]: [None] when it succeeds, [Some msg]
      when it raises, [msg] being [str(e)].  [__init__] builds
      [budget_file] from [config_path] without [expanduser], so with the
      default [config_path] the file is [~/ai-config/budget_tracker.json]
      below the working directory, and the open raises unless such a
      directory exists there. *)
  budget_open : option string
}.

Inductive Event :=
| OllamaCall (model prompt : string)
| ClaudeCall (prompt : string)
| BudgetWrite (data : budget_data).

(** [budget_file = None]: the file does not exist. *)
Record World := {
  budget_file : option budget_data;
  trace : list Event
}.

Definition log (ev : Event) (w : World) : World :=
  {| budget_file := budget_file w; trace := trace w ++ [ev] |}.

(** State-passing computations over the world. *)
Definition M (A : Type) : Type := World -> A * World.

Global Instance M_ret : MRet M := fun A (a : A) w => (a, w).
Global Instance M_bind : MBind M :=
  fun A B (k : A -> M B) (m : M A) w => let '(a, w') := m w in k a w'.

(** A computation that only reads the world. *)
Definition read {A} (f : World -> A) : M A := fun w => (f w, w).

Definition run {A} (m : M A) (w : World) : A * World := m w.

(** ** Result dictionaries *)

Inductive Result :=
| Success (response model : string) (cost : float)
          (tokens_input tokens_output : Z)
| Failure (error : string) (fallback : bool).

(** [result["success"]] *)
Definition success (r : Result) : bool :=
  match r with Success _ _ _ _ _ => true | Failure _ _ => false end.

(** [result.get("fallback")], falsy when the key is absent. *)
Definition get_fallback (r : Result) : bool :=
  match r with Success _ _ _ _ _ => false | Failure _ fb => fb end.

Module Status.
(** The dictionary returned by [get_budget_status]. *)
Record t := {
  current_month : string;
  spent : float;
  requests : Z;
  budget : float;
  remaining : float;
  budget_data : gmap string entry
}.
End Status.

(** What [route_request] returns: the backend's result with the two keys
    [budget_status] and [routing_reason] added. *)
Record Routed := {
  result : Result;
  budget_status : Status.t;
  routing_reason : string
}.

(** [int] to [float], as in [int * float]; exact below 2^53. *)
Definition float_of_int (z : Z) : float := PrimFloat.of_uint63 (Uint63.of_Z z).

(** [sorted(d.keys())] *)
Definition sorted_keys (d : gmap string entry) : list string :=
  merge_sort String.le (map_to_list d).*1.

(** [l[-3:]] *)
Definition last3 {A} (l : list A) : list A := drop (length l - 3) l.

(** [{month: d[month] for month in months}] *)
Definition restrict (d : gmap string entry) (months : list string)
  : gmap string entry :=
  list_to_map (omap (fun month => (fun e => (month, e)) <$> d !! month) months).

(** [budget_data[current_month]["spent"] += cost] and
    [budget_data[current_month]["requests"] += 1] *)
Definition charge (cost : float) (e : entry) : entry :=
  {| spent := (spent e + cost)%float; requests := (requests e + 1)%Z |}.

(** [len(s) // 4], the token estimate of [call_claude]. *)
Definition estimate_tokens (s : string) : Z := (Z.of_nat (len s) / 4)%Z.

(** The cost [call_claude] computes from the two estimates. *)
Definition estimate_cost (cfg : Config) (prompt text : string) : float :=
  (float_of_int (estimate_tokens prompt) * cost_per_input_token cfg
   + float_of_int (estimate_tokens text) * cost_per_output_token cfg)%float.

(** [force_model == name], where [force_model] may be [None]. *)
Definition is_model (force_model : option string) (name : string) : bool :=
  match force_model with
  | Some m => String.eqb m name
  | None => false
  end.

Definition is_backend_call (ev : Event) : bool :=
  match ev with BudgetWrite _ => false | _ => true end.

Definition is_claude_call (ev : Event) : bool :=
  match ev with ClaudeCall _ => true | _ => false end.

Definition is_budget_write (ev : Event) : bool :=
  match ev with BudgetWrite _ => true | _ => false end.

(** Number of events of one kind in a trace. *)
Definition count (kind : Event -> bool) (t : list Event) : nat :=
  length (List.filter kind t).

(** The spec's reading of the keyword test: [keyword] occurs in [prompt]
    when case is ignored on both sides. *)
Definition contains_ignoring_case (keyword prompt : string) : bool :=
  str_in (lower keyword) (lower prompt).

(** [json.load] of the budget file if it exists, [{}] otherwise. *)
Definition load_budget (w : World) : gmap string entry :=
  match budget_file w with Some d => d | None => ∅ end.

(** How [update_budget] ends: the ledger is written, or the [open]
    raises. *)
Inductive WriteResult :=
| Written
| WriteRaised (msg : string).

Section Router.
Variable self : SmartAIRouter.
Variable env : Env.

Definition get_budget_status (w : World) : Status.t :=
  let current_month := now_month env in
  let budget_data := load_budget w in
  let budget_data :=
    match budget_data !! current_month with
    | Some _ => budget_data
    | None => <[current_month := zero_entry]> budget_data
    end in
  let e := default zero_entry (budget_data !! current_month) in
  {| Status.current_month := current_month;
     Status.spent := spent e;
     Status.requests := requests e;
     Status.budget := monthly_budget (config self);
     Status.remaining := (monthly_budget (config self) - spent e)%float;
     Status.budget_data := budget_data |}.

Definition update_budget (cost : float) : M WriteResult := fun w =>
  let budget_status := get_budget_status w in
  let current_month := Status.current_month budget_status in
  let budget_data := Status.budget_data budget_status in
  let budget_data := alter (charge cost) current_month budget_data in
  (* Keep only last 3 months *)
  let months_to_keep := last3 (sorted_keys budget_data) in
  let budget_data := restrict budget_data months_to_keep in
  match budget_open env with
  | Some msg => (WriteRaised msg, w)
  | None =>
      (Written, {| budget_file := Some budget_data;
                   trace := trace w ++ [BudgetWrite budget_data] |})
  end.

Definition should_escalate_to_claude (prompt : string) : M (bool * string) :=
  fun w =>
  let budget_status := get_budget_status w in
  if (Status.remaining budget_status <=? 0)%float then
    ((false, "Budget erschöpft - Fallback zu Ollama"), w)
  else if (Status.remaining budget_status <? 0.5)%float then
    ((false, "Budget niedrig - Ollama bevorzugt"), w)
  else
    let prompt_lower := lower prompt in
    if any_in (ollama_keywords (config self)) prompt_lower then
      ((false, "Einfache Coding-Task - Ollama ausreichend"), w)
    else if any_in (escalation_keywords (config self)) prompt_lower then
      ((true, "Komplexe Task - Claude erforderlich"), w)
    else if (1000 <? len prompt)%nat then
      ((true, "Langer Prompt - Claude für bessere Qualität"), w)
    else
      ((false, "Standard-Task - Ollama Standard"), w).

Definition call_ollama (prompt : string) (model : string) : M Result :=
  fun w =>
  let w := log (OllamaCall model prompt) w in
  match ollama_api env (ollama_base_url (config self) ++ "/api/generate")
                   model prompt with
  | Returned text => (Success text ("ollama-" ++ model) 0.0%float 0%Z 0%Z, w)
  | Raised msg => (Failure msg true, w)
  end.

Definition call_claude (prompt : string) : M Result := fun w =>
  if negb (claude_client self) then
    (Failure "Claude API key nicht konfiguriert" true, w)
  else
    let w := log (ClaudeCall prompt) w in
    match claude_api env prompt with
    | Returned text =>
        let input_tokens := (Z.of_nat (len prompt) / 4)%Z in
        let output_tokens := (Z.of_nat (len text) / 4)%Z in
        let cost :=
          (float_of_int input_tokens * cost_per_input_token (config self)
           + float_of_int output_tokens * cost_per_output_token (config self))%float in
        (* Budget aktualisieren; a raising write is caught by the except *)
        match update_budget cost w with
        | (Written, w) =>
            (Success text "claude-3-sonnet" cost input_tokens output_tokens, w)
        | (WriteRaised msg, w) => (Failure msg true, w)
        end
    | Raised msg => (Failure msg true, w)
    end.

(** The routing decision at the head of [route_request]. *)
Definition choose_backend (prompt : string) (force_model : option string)
  : M (bool * string) :=
  if is_model force_model "ollama" then mret (false, "Erzwungen: Ollama")
  else if is_model force_model "claude" then mret (true, "Erzwungen: Claude")
  else should_escalate_to_claude prompt.

Definition route_request (prompt : string) (force_model : option string)
  : M Routed :=
  '(should_use_claude, reason) ← choose_backend prompt force_model;
  result ←
    (if should_use_claude : bool then
       result ← call_claude prompt;
       if negb (success result) && get_fallback result then
         call_ollama prompt "mistral"
       else mret result
     else
       result ← call_ollama prompt "mistral";
       mret result);
  (* Budget-Status hinzufügen *)
  budget_status ← read get_budget_status;
  mret {| result := result;
          budget_status := budget_status;
          routing_reason := reason |}.
End Router.

(** ** Sample worlds *)

Definition empty_world : World := {| budget_file := None; trace := [] |}.

(** A ledger file holding one entry for [month]. *)
Definition world_with (month : string) (e : entry) : World :=
  {| budget_file := Some {[ month := e ]}; trace := [] |}.

(** Both backends answer. *)
Definition env_up : Env :=
  {| now_month := "2025-01";
     ollama_api := fun _ _ _ => Returned "local answer";
     claude_api := fun _ => Returned "paid answer";
     budget_open := None |}.

(** The default configuration with a credential. *)
Definition paid_router : SmartAIRouter :=
  {| config := default_config; claude_client := true |}.

(** The local endpoint is unreachable, the paid API answers. *)
Definition env_local_down : Env :=
  {| now_month := "2025-01";
     ollama_api := fun _ _ _ => Raised "connection refused";
     claude_api := fun _ => Returned "paid answer";
     budget_open := None |}.

(** The paid API fails, the local endpoint answers. *)
Definition env_paid_down : Env :=
  {| now_month := "2025-01";
     ollama_api := fun _ _ _ => Returned "local answer";
     claude_api := fun _ => Raised "overloaded";
     budget_open := None |}.

(** The paid API answers with a text of 200 characters. *)
Definition env_reply_200 : Env :=
  {| now_month := "2025-01";
     ollama_api := fun _ _ _ => Returned "local answer";
     claude_api := fun _ => Returned (string_of_list_ascii (replicate 200 "x"%char));
     budget_open := None |}.

(** A ledger file that already holds three months after January 2025. *)
Definition world_ahead : World :=
  {| budget_file :=
       Some (list_to_map [("2025-02", {| spent := 1.0%float; requests := 2%Z |});
                          ("2025-03", {| spent := 0.5%float; requests := 1%Z |});
                          ("2025-04", zero_entry)]);
     trace := [] |}.

(** The backends answer, but the budget file cannot be opened for
    writing: the router of the default constructor, started in a directory
    that has no [~/ai-config] below it. *)
Definition env_default_path : Env :=
  {| now_month := "2025-01";
     ollama_api := fun _ _ _ => Returned "local answer";
     claude_api := fun _ => Returned "paid answer";
     budget_open :=
       Some "[Errno 2] No such file or directory: '~/ai-config/budget_tracker.json'" |}.

(** The default configuration with a capitalised force-local keyword. *)
Definition capitalised_router : SmartAIRouter :=
  {| config :=
       {| claude_api_key := "key";
          ollama_base_url := "http://localhost:11434";
          monthly_budget := 5.0%float;
          warning_threshold := 4.0%float;
          escalation_keywords := escalation_keywords default_config;
          ollama_keywords := ["Fix"];
          cost_per_input_token := 0.000003%float;
          cost_per_output_token := 0.000015%float |};
     claude_client := true |}.

(** A text of [n] characters. *)
Definition filler (n : nat) : string :=
  string_of_list_ascii (replicate n "x"%char).

(** ** The spec's wording of two laws, for comparison with the code *)

(** The fallback law read for both backends: when the chosen backend's
    call fails with [fallback = true], [route_request] ends exactly as one
    call of the other backend client does after it. *)
Definition fallback_law (self : SmartAIRouter) (env : Env) (prompt : string)
    (force_model : option string) (w : World) : Prop :=
  let d := run (choose_backend self env prompt force_model) w in
  let use_claude := fst (fst d) in
  let chosen :=
    if use_claude then call_claude self env prompt
    else call_ollama self env prompt "mistral" in
  let other :=
    if use_claude then call_ollama self env prompt "mistral"
    else call_claude self env prompt in
  let first := run chosen (snd d) in
  let out := run (route_request self env prompt force_model) w in
  success (fst first) = false -> get_fallback (fst first) = true ->
  (result (fst out), snd out) = run other (snd first).

(** Input validation: the empty prompt is answered by a failure and no
    backend is called. *)
Definition rejects_empty_prompt (self : SmartAIRouter) (env : Env)
    (force_model : option string) (w : World) : Prop :=
  let out := run (route_request self env "" force_model) w in
  success (result (fst out)) = false
  /\ count is_backend_call (trace (snd out)) = count is_backend_call (trace w).

(** ** The configuration file *)

(** The JSON object of the configuration file, key by key; [None]: the key
    is absent.  Keys the router never reads are left out, and the values
    present are taken to have the types of the defaults. *)
Record ConfigFile := {
  file_claude_api_key : option string;
  file_ollama_base_url : option string;
  file_monthly_budget : option float;
  file_warning_threshold : option float;
  file_escalation_keywords : option (list string);
  file_ollama_keywords : option (list string);
  file_cost_per_input_token : option float;
  file_cost_per_output_token : option float
}.

(** [default_config.update(config)] *)
Definition update_defaults (file : ConfigFile) : Config := {|
  claude_api_key :=
    default (claude_api_key default_config) (file_claude_api_key file);
  ollama_base_url :=
    default (ollama_base_url default_config) (file_ollama_base_url file);
  monthly_budget :=
    default (monthly_budget default_config) (file_monthly_budget file);
  warning_threshold :=
    default (warning_threshold default_config) (file_warning_threshold file);
  escalation_keywords :=
    default (escalation_keywords default_config)
            (file_escalation_keywords file);
  ollama_keywords :=
    default (ollama_keywords default_config) (file_ollama_keywords file);
  cost_per_input_token :=
    default (cost_per_input_token default_config)
            (file_cost_per_input_token file);
  cost_per_output_token :=
    default (cost_per_output_token default_config)
            (file_cost_per_output_token file)
|}.

(** [json.dump(config, f)]: every key of the dictionary is written. *)
Definition dump_config (cfg : Config) : ConfigFile := {|
  file_claude_api_key := Some (claude_api_key cfg);
  file_ollama_base_url := Some (ollama_base_url cfg);
  file_monthly_budget := Some (monthly_budget cfg);
  file_warning_threshold := Some (warning_threshold cfg);
  file_escalation_keywords := Some (escalation_keywords cfg);
  file_ollama_keywords := Some (ollama_keywords cfg);
  file_cost_per_input_token := Some (cost_per_input_token cfg);
  file_cost_per_output_token := Some (cost_per_output_token cfg)
|}.

(** The world together with the configuration file ([None]: no file). *)
Record Disk := {
  config_file : option ConfigFile;
  world : World
}.

Definition D (A : Type) : Type := Disk -> A * Disk.

Global Instance D_ret : MRet D := fun A (a : A) d => (a, d).
Global Instance D_bind : MBind D :=
  fun A B (k : A -> D B) (m : D A) d => let '(a, d') := m d in k a d'.

(** A computation on the world, run on a disk. *)
Definition lift {A} (m : M A) : D A := fun d =>
  let '(a, w) := m (world d) in
  (a, {| config_file := config_file d; world := w |}).

Definition load_config : D Config := fun d =>
  match config_file d with
  | Some file => (update_defaults file, d)
  | None =>
      (default_config,
       {| config_file := Some (dump_config default_config);
          world := world d |})
  end.

(** [SmartAIRouter()]: [__init__] with the default path. *)
Definition new_router : D SmartAIRouter :=
  cfg ← load_config; mret (init cfg).

Definition save_config (self : SmartAIRouter) : D unit := fun d =>
  (tt, {| config_file := Some (dump_config (config self)); world := world d |}).

(** [router.config["claude_api_key"] = claude_api_key]: the dictionary
    changes, the client built by [__init__] does not. *)
Definition set_api_key (self : SmartAIRouter) (key : string) : SmartAIRouter :=
  {| config :=
       {| claude_api_key := key;
          ollama_base_url := ollama_base_url (config self);
          monthly_budget := monthly_budget (config self);
          warning_threshold := warning_threshold (config self);
          escalation_keywords := escalation_keywords (config self);
          ollama_keywords := ollama_keywords (config self);
          cost_per_input_token := cost_per_input_token (config self);
          cost_per_output_token := cost_per_output_token (config self) |};
     claude_client := claude_client self |}.

Definition create_router_instance : D SmartAIRouter := new_router.

Definition route_prompt (env : Env) (prompt : string)
    (force_model : option string) : D string :=
  router ← create_router_instance;
  routed ← lift (route_request router env prompt force_model);
  mret (match result routed with
        | Success response _ _ _ _ => response
        | Failure error _ => "Fehler: " ++ error
        end).

(** [setup_config]; the two test results, which the source prints, are
    returned. *)
Definition setup_config (env : Env) (claude_api_key : string)
  : D (Result * Result) :=
  router ← new_router;
  let router := set_api_key router claude_api_key in
  _ ← save_config router;
  ollama_result ← lift (call_ollama router env "Hello, test message" "mistral");
  claude_result ← lift (call_claude router env "Hello, test message");
  mret (ollama_result, claude_result).

(** ** The HTTP adapter ([cursor_integration.py]) *)

Definition nl : string := String "010"%char EmptyString.

(** The value under a message's ["content"] key: a string, or another
    JSON value (a list of parts, a number, ...), of which the handler only
    sees the Python type name and the truth value. *)
Inductive Content :=
| Text (s : string)
| NonText (type_name : string) (truthy : bool).

(** One element of [messages]; [content = None]: the key is absent. *)
Record Message := {
  role : string;
  content : option Content
}.

(** The JSON body of a 200 answer. *)
Record ChatCompletion := {
  completion_model : string;
  completion_content : string;
  prompt_tokens : Z;
  completion_tokens : Z;
  total_tokens : Z;
  router_cost : float;
  budget_remaining : float;
  router_reason : string;
  created : Z
}.

Inductive HttpResponse :=
| Ok200 (body : ChatCompletion)
| SendError (code : Z) (message : string).

(** [bool(c)] *)
Definition is_truthy (c : Content) : bool :=
  match c with
  | Text s => negb (String.eqb s "")
  | NonText _ truthy => truthy
  end.

(** [[msg.get('content', '') for msg in messages if msg.get('content')]] *)
Definition contents (messages : list Message) : list Content :=
  omap (fun msg =>
          match content msg with
          | Some c => if is_truthy c then Some c else None
          | None => None
          end) messages.

(** How [sep.join(items)] ends: with the joined text, or with the
    [TypeError] raised at the first item that is not a string. *)
Inductive JoinResult :=
| Joined (text : string)
| JoinRaised (msg : string).

(** The items from position [i] on, when they are all strings. *)
Fixpoint texts_from (i : nat) (items : list Content) : string + list string :=
  match items with
  | [] => inr []
  | Text s :: rest =>
      match texts_from (S i) rest with
      | inl msg => inl msg
      | inr texts => inr (s :: texts)
      end
  | NonText type_name _ :: _ =>
      inl ("sequence item " ++ pretty i ++ ": expected str instance, "
           ++ type_name ++ " found")
  end.

Definition join (sep : string) (items : list Content) : JoinResult :=
  match texts_from 0 items with
  | inl msg => JoinRaised msg
  | inr texts => Joined (String.concat sep texts)
  end.

(** [handle_chat_completion] on the decoded [messages]; [now] is
    [int(time.time())]. *)
Definition handle_chat_completion (router : SmartAIRouter) (env : Env)
    (now : Z) (messages : list Message) : M HttpResponse :=
  match messages with
  | [] => mret (SendError 500 "Server Error: No messages provided")
  | _ =>
      match join nl (contents messages) with
      | JoinRaised msg => mret (SendError 500 ("Server Error: " ++ msg))
      | Joined prompt =>
          routed ← route_request router env prompt None;
          mret (match result routed with
                | Success response model cost tokens_input tokens_output =>
                    Ok200 {| completion_model := model;
                             completion_content := response;
                             prompt_tokens := tokens_input;
                             completion_tokens := tokens_output;
                             total_tokens := (tokens_input + tokens_output)%Z;
                             router_cost := cost;
                             budget_remaining :=
                               Status.remaining (budget_status routed);
                             router_reason := routing_reason routed;
                             created := now |}
                | Failure error _ =>
                    SendError 500 ("AI Router Error: " ++ error)
                end)
      end
  end.

Definition do_POST (router : SmartAIRouter) (env : Env) (now : Z)
    (path : string) (messages : list Message) : M HttpResponse :=
  if String.eqb path "/v1/chat/completions"
  then handle_chat_completion router env now messages
  else mret (SendError 404 "Not Found").

(** One POST as the server handles it: a [CursorAIHandler] is built, its
    [__init__] creating a router, then [do_POST] runs. *)
Definition serve_POST (env : Env) (now : Z) (path : string)
    (messages : list Message) : D HttpResponse :=
  router ← new_router;
  lift (do_POST router env now path messages).

(** ** The file workflow ([file_router.py]) *)

(** A [Path]: what [str(path)] and [path.name] give. *)
Record Path := {
  path_str : string;
  path_name : string
}.

(** The clock and number formats [format_output] relies on. *)
Record Format := {
  (** [datetime.now().strftime("%Y-%m-%d %H:%M:%S")] *)
  timestamp : string;
  (** [f"{x:.4f}"] *)
  fixed4 : float -> string;
  (** [f"{x:.2f}"] *)
  fixed2 : float -> string
}.

(** Files by path, beside the world. *)
Record FS := {
  files : gmap string string;
  fs_world : World
}.

Definition base_context (content task_type name : string) : string :=
  nl ++ "File: " ++ name ++ nl
  ++ "Task: " ++ task_type ++ nl
  ++ "Project Context: Healthcare VRP System (ASPICE-konform)" ++ nl
  ++ nl
  ++ "Input Content:" ++ nl
  ++ content ++ nl
  ++ nl.

Definition code_template : string :=
  nl ++ "Bitte analysiere und verbessere den Code:" ++ nl
  ++ "1. Code-Qualität und Best-Practices" ++ nl
  ++ "2. Performance-Optimierungen" ++ nl
  ++ "3. Fehlerbehandlung" ++ nl
  ++ "4. Dokumentation" ++ nl
  ++ "5. ASPICE-Traceability-Kommentare" ++ nl
  ++ nl
  ++ "Gib den verbesserten Code mit Erklärungen zurück." ++ nl.

Definition architecture_template : string :=
  nl ++ "Erstelle eine detaillierte Architektur-Analyse:" ++ nl
  ++ "1. System-Design-Entscheidungen" ++ nl
  ++ "2. ASPICE-Compliance-Bewertung" ++ nl
  ++ "3. Healthcare-Domain-Spezifika" ++ nl
  ++ "4. Performance- und Skalierbarkeits-Überlegungen" ++ nl
  ++ "5. Sicherheits- und DSGVO-Aspekte" ++ nl
  ++ "6. Verbesserungsvorschläge" ++ nl
  ++ nl
  ++ "Format: Strukturiertes Markdown-Dokument" ++ nl.

Definition review_template : string :=
  nl ++ "Führe ein umfassendes Code/Design-Review durch:" ++ nl
  ++ "1. ASPICE-Requirements-Traceability" ++ nl
  ++ "2. Healthcare-Compliance (DSGVO, gematik)" ++ nl
  ++ "3. Code-Qualität und Architektur" ++ nl
  ++ "4. Test-Coverage und Qualitätssicherung" ++ nl
  ++ "5. Dokumentations-Vollständigkeit" ++ nl
  ++ "6. Konkrete Verbesserungsvorschläge" ++ nl
  ++ nl
  ++ "Priorisiere Findings nach Kritikalität." ++ nl.

Definition generic_template : string :=
  nl ++ "Analysiere den Inhalt und gib relevante Verbesserungsvorschläge:"
  ++ nl.

Definition create_prompt (content task_type : string) (input_path : Path)
  : string :=
  let base_context := base_context content task_type (path_name input_path) in
  if String.eqb task_type "code" then base_context ++ code_template
  else if String.eqb task_type "architecture"
  then base_context ++ architecture_template
  else if String.eqb task_type "review" then base_context ++ review_template
  else base_context ++ generic_template.

(** [None]: the result has no ["model"] key, the lookup raises. *)
Definition format_output (fmt : Format) (routed : Routed)
    (task_type : string) (input_path : Path) : option string :=
  match result routed with
  | Success response model cost _ _ =>
      let header :=
        "# AI-Analyse: " ++ path_name input_path ++ nl
        ++ nl
        ++ "**Generiert:** " ++ timestamp fmt ++ nl
        ++ "**Model:** " ++ model ++ nl
        ++ "**Task-Type:** " ++ task_type ++ nl
        ++ "**Routing-Grund:** " ++ routing_reason routed ++ nl in
      let header :=
        if (0 <? cost)%float
        then header ++ "**Kosten:** $" ++ fixed4 fmt cost ++ nl
        else header in
      let header :=
        header ++ "**Budget verbleibend:** $"
        ++ fixed2 fmt (Status.remaining (budget_status routed)) ++ nl in
      let header := header ++ nl ++ "---" ++ nl ++ nl in
      Some (header ++ response)
  | Failure _ _ => None
  end.

(** The task type [process_file_request] works with: its argument, or for
    "auto" what the path suggests. *)
Definition resolve_task_type (task_type : string) (input_path : Path)
  : string :=
  if String.eqb task_type "auto" then
    if str_in "architecture" (path_str input_path)
       || str_in "design" (path_str input_path)
    then "architecture"
    else if str_in "review" (path_str input_path) then "review"
    else "code"
  else task_type.

(** ["claude" if task_type in ["architecture", "review"] else None] *)
Definition force_model_of (task_type : string) : option string :=
  if String.eqb task_type "architecture" || String.eqb task_type "review"
  then Some "claude" else None.

Definition process_file_request (router : SmartAIRouter) (env : Env)
    (fmt : Format) (input_path output_path : Path) (task_type : string)
    (s : FS) : bool * FS :=
  match files s !! path_str input_path with
  | None => (false, s)
  | Some content =>
      let task_type := resolve_task_type task_type input_path in
      let prompt := create_prompt content task_type input_path in
      let force_model := force_model_of task_type in
      let '(routed, w) :=
        run (route_request router env prompt force_model) (fs_world s) in
      if success (result routed) then
        match format_output fmt routed task_type input_path with
        | Some text =>
            (true,
             {| files := <[path_str output_path := text]> (files s);
                fs_world := w |})
        | None =>
            (* not reached: a successful result has every key *)
            (false, {| files := files s; fs_world := w |})
        end
      else (false, {| files := files s; fs_world := w |})
  end.

(** * Facts *)

(** ** Floating-point comparisons *)

Lemma float_pos_not_le0 (r : float) :
  (0 <? r)%float = true -> (r <=? 0)%float = false.
Proof.
  rewrite ltb_spec, leb_spec.
  change (Prim2SF 0) with (S754_zero false).
  destruct (Prim2SF r) as [s|s| |s m e]; try destruct s; cbv; congruence.
Qed.

(** ** The budget gate *)

(** C3: with no forced backend, a remaining budget [<= 0] makes
    [should_escalate_to_claude] answer the local backend with the reason
    "budget exhausted", and a remaining budget strictly between 0 and 0.5
    makes it answer the local backend with the reason "budget low"; in both
    cases whatever the prompt and the keyword lists are, and without
    touching the world. *)
Theorem budget_gate_dominates (self : SmartAIRouter) (env : Env)
    (prompt : string) (w : World) :
  let remaining := Status.remaining (get_budget_status self env w) in
  ((remaining <=? 0)%float = true ->
     run (should_escalate_to_claude self env prompt) w
     = ((false, "Budget erschöpft - Fallback zu Ollama"), w))
  /\ ((0 <? remaining)%float = true -> (remaining <? 0.5)%float = true ->
     run (should_escalate_to_claude self env prompt) w
     = ((false, "Budget niedrig - Ollama bevorzugt"), w)).
Proof.
  intros remaining. unfold run, should_escalate_to_claude.
  fold remaining. split.
  - intros ->. reflexivity.
  - intros Hpos ->. rewrite (float_pos_not_le0 _ Hpos). reflexivity.
Qed.

Lemma budget_gate_dominates_witness :
  run (should_escalate_to_claude paid_router env_up
         "design the system architecture")
      (world_with "2025-01" {| spent := 5.0%float; requests := 9 |})
  = ((false, "Budget erschöpft - Fallback zu Ollama"),
     world_with "2025-01" {| spent := 5.0%float; requests := 9 |})
  /\ run (should_escalate_to_claude paid_router env_up
         "design the system architecture")
      (world_with "2025-01" {| spent := 4.9%float; requests := 9 |})
  = ((false, "Budget niedrig - Ollama bevorzugt"),
     world_with "2025-01" {| spent := 4.9%float; requests := 9 |}).
Proof.
  split.
  - apply (budget_gate_dominates paid_router env_up). vm_compute. reflexivity.
  - apply (budget_gate_dominates paid_router env_up); vm_compute; reflexivity.
Defined.

(** ** Lengths *)

(** [len] counts code points, not bytes. *)
Example len_counts_code_points :
  len "Code-Qualität" = 13 /\ String.length "Code-Qualität" = 14.
Proof. split; reflexivity. Qed.

(** ** Keyword inspection *)

Lemma any_in_true (keywords : list string) (s : string) :
  any_in keywords s = true <->
  exists keyword, In keyword keywords /\ str_in keyword s = true.
Proof. unfold any_in. apply existsb_exists. Qed.

(** [lower] never yields an upper-case ASCII letter; here for [A]. *)
Lemma lower_ascii_not_A (c : ascii) : lower_ascii c <> "A"%char.
Proof.
  destruct c as [[] [] [] [] [] [] [] []]; vm_compute; discriminate.
Qed.

Lemma lower_ascii_idem (c : ascii) : lower_ascii (lower_ascii c) = lower_ascii c.
Proof.
  destruct c as [[] [] [] [] [] [] [] []]; vm_compute; reflexivity.
Qed.

Lemma lower_idem (s : string) : lower (lower s) = lower s.
Proof.
  induction s as [|c s IH]; simpl; [reflexivity|].
  now rewrite lower_ascii_idem, IH.
Qed.

(** For a keyword already in lower case the router's test is the
    case-insensitive one. *)
Lemma lowercase_keyword_test (keyword prompt : string) :
  lower keyword = keyword ->
  str_in keyword (lower prompt) = contains_ignoring_case keyword prompt.
Proof. unfold contains_ignoring_case. now intros ->. Qed.

Lemma ASPICE_not_in_lower (prompt : string) :
  str_in "ASPICE" (lower prompt) = false.
Proof.
  induction prompt as [|c prompt IH]; [reflexivity|].
  cbn [lower str_in]. rewrite IH, orb_false_r.
  cbn [String.prefix].
  destruct (ascii_dec "A" (lower_ascii c)) as [E|]; [|reflexivity].
  symmetry in E. now apply lower_ascii_not_A in E.
Qed.

(** C2: the keyword test lower-cases the prompt only.  The default
    force-paid keyword "ASPICE" is matched by no prompt at all, although
    the prompt "aspice audit" contains it when case is ignored; that prompt
    is routed by the default rule instead of the complex-task rule. *)
Theorem uppercase_keyword_never_matches :
  In "ASPICE" (escalation_keywords default_config)
  /\ (forall prompt, str_in "ASPICE" (lower prompt) = false)
  /\ contains_ignoring_case "ASPICE" "aspice audit" = true
  /\ run (should_escalate_to_claude paid_router env_up "aspice audit")
         empty_world
     = ((false, "Standard-Task - Ollama Standard"), empty_world).
Proof.
  split; [|split; [|split]].
  - cbn. tauto.
  - apply ASPICE_not_in_lower.
  - vm_compute. reflexivity.
  - vm_compute. reflexivity.
Qed.

(** A force-local match decides for the local backend, before the
    force-paid and length tests are looked at. *)
Lemma local_match_routes_local (self : SmartAIRouter) (env : Env)
    (prompt : string) (w : World) :
  any_in (ollama_keywords (config self)) (lower prompt) = true ->
  let remaining := Status.remaining (get_budget_status self env w) in
  let decision := fst (run (choose_backend self env prompt None) w) in
  fst decision = false
  /\ ((remaining <=? 0)%float = false -> (remaining <? 0.5)%float = false ->
      snd decision = "Einfache Coding-Task - Ollama ausreichend").
Proof.
  intros Hany remaining decision.
  subst decision. unfold run, choose_backend, should_escalate_to_claude.
  cbn [is_model]. fold remaining. rewrite Hany.
  destruct (remaining <=? 0)%float; [split; [reflexivity | discriminate]|].
  destruct (remaining <? 0.5)%float; [split; [reflexivity | discriminate]|].
  split; reflexivity.
Qed.

(** With no forced backend, a prompt in which the router's own test finds
    a force-local keyword is sent to the local backend, whatever its length
    and whatever force-paid keywords it holds; when the budget gate lets
    the request through, the reason is the simple-task one, so the
    force-local test comes before the force-paid and the length tests. *)
Lemma local_keyword_precedence (self : SmartAIRouter) (env : Env)
    (prompt keyword : string) (w : World) :
  In keyword (ollama_keywords (config self)) ->
  str_in keyword (lower prompt) = true ->
  let remaining := Status.remaining (get_budget_status self env w) in
  let decision := fst (run (choose_backend self env prompt None) w) in
  fst decision = false
  /\ ((remaining <=? 0)%float = false -> (remaining <? 0.5)%float = false ->
      snd decision = "Einfache Coding-Task - Ollama ausreichend").
Proof.
  intros Hin Hmatch. apply local_match_routes_local.
  apply any_in_true. exists keyword. split; assumption.
Qed.

Lemma local_keyword_precedence_witness :
  fst (run (choose_backend paid_router env_up "fix the system design" None)
           empty_world)
  = (false, "Einfache Coding-Task - Ollama ausreichend").
Proof.
  destruct (local_keyword_precedence paid_router env_up
              "fix the system design" "fix" empty_world) as [H1 H2].
  - cbn. tauto.
  - vm_compute. reflexivity.
  - specialize (H2 eq_refl eq_refl).
    apply injective_projections; [exact H1 | exact H2].
Defined.

(** The default force-local keywords are all lower case, so with them the
    precedence holds for containment ignoring case as well. *)
Lemma default_local_keywords_lowercase :
  Forall (fun keyword => lower keyword = keyword)
         (ollama_keywords default_config).
Proof. repeat constructor. Qed.

Lemma default_local_keyword_ignoring_case (self : SmartAIRouter) (env : Env)
    (prompt keyword : string) (w : World) :
  ollama_keywords (config self) = ollama_keywords default_config ->
  In keyword (ollama_keywords default_config) ->
  contains_ignoring_case keyword prompt = true ->
  fst (fst (run (choose_backend self env prompt None) w)) = false.
Proof.
  intros Hcfg Hin Hci.
  apply local_match_routes_local. rewrite Hcfg.
  apply any_in_true. exists keyword. split; [exact Hin|].
  rewrite lowercase_keyword_test; [exact Hci|].
  pose proof default_local_keywords_lowercase as Hlow.
  rewrite Forall_forall in Hlow. apply Hlow. now apply list_elem_of_In.
Qed.

(** C4: a force-local keyword written with a capital is not honoured.
    With "Fix" as the force-local keyword, the prompt "Fix the system
    design" contains the keyword, but the force-local test compares the
    keyword as written with the lower-cased prompt and does not find it;
    the force-paid keywords of the prompt then send the request to the
    paid backend.  The precedence itself holds whenever the test finds the
    keyword ([local_keyword_precedence]), which for keywords in lower case
    is whenever the prompt contains them, ignoring case
    ([default_local_keyword_ignoring_case]). *)
Theorem capitalised_local_keyword_not_honoured :
  In "Fix" (ollama_keywords (config capitalised_router))
  /\ str_in "Fix" "Fix the system design" = true
  /\ contains_ignoring_case "Fix" "Fix the system design" = true
  /\ str_in "Fix" (lower "Fix the system design") = false
  /\ run (choose_backend capitalised_router env_up
            "Fix the system design" None) empty_world
     = ((true, "Komplexe Task - Claude erforderlich"), empty_world).
Proof.
  split; [cbn; tauto|].
  split; [vm_compute; reflexivity|].
  split; [vm_compute; reflexivity|].
  split; [vm_compute; reflexivity|].
  vm_compute. reflexivity.
Qed.

(** ** Forced backends *)

Lemma choose_backend_unknown_force (self : SmartAIRouter) (env : Env)
    (prompt name : string) :
  name <> "ollama" -> name <> "claude" ->
  choose_backend self env prompt (Some name) = choose_backend self env prompt None.
Proof.
  intros H1 H2. unfold choose_backend, is_model.
  apply String.eqb_neq in H1, H2. now rewrite H1, H2.
Qed.

(** C9: a [force_model] other than "ollama" and "claude" is ignored:
    [route_request] neither fails nor forces anything, it behaves exactly
    as with no forced backend, the decision being that of
    [should_escalate_to_claude]. *)
Theorem unknown_force_model_ignored (self : SmartAIRouter) (env : Env)
    (prompt name : string) (w : World) :
  name <> "ollama" -> name <> "claude" ->
  run (route_request self env prompt (Some name)) w
  = run (route_request self env prompt None) w
  /\ run (choose_backend self env prompt (Some name)) w
     = run (should_escalate_to_claude self env prompt) w.
Proof.
  intros H1 H2. unfold route_request.
  rewrite (choose_backend_unknown_force self env prompt name H1 H2).
  split; reflexivity.
Qed.

Lemma unknown_force_model_ignored_witness :
  run (route_request paid_router env_up "design the system" (Some "Claude"))
      empty_world
  = run (route_request paid_router env_up "design the system" None)
        empty_world.
Proof.
  apply (unknown_force_model_ignored paid_router env_up
           "design the system" "Claude" empty_world); discriminate.
Defined.

(** ** Traces *)

Lemma count_snoc (kind : Event -> bool) (t : list Event) (ev : Event) :
  count kind (t ++ [ev]) = count kind t + (if kind ev then 1 else 0).
Proof.
  unfold count. rewrite List.filter_app, length_app. cbn.
  destruct (kind ev); reflexivity.
Qed.

Lemma call_ollama_world (self : SmartAIRouter) (env : Env)
    (prompt model : string) (w : World) :
  snd (run (call_ollama self env prompt model) w)
  = log (OllamaCall model prompt) w.
Proof.
  unfold run, call_ollama. now destruct (ollama_api env _ model prompt).
Qed.

Lemma choose_backend_reads_only (self : SmartAIRouter) (env : Env)
    (prompt : string) (force_model : option string) (w : World) :
  snd (run (choose_backend self env prompt force_model) w) = w.
Proof.
  unfold run, choose_backend, should_escalate_to_claude.
  destruct (is_model force_model "ollama"); [reflexivity|].
  destruct (is_model force_model "claude"); [reflexivity|].
  repeat match goal with |- context [if ?b then _ else _] => destruct b end;
    reflexivity.
Qed.

(** [route_request], one case per branch of its [if should_use_claude]. *)
Lemma route_request_unfold (self : SmartAIRouter) (env : Env)
    (prompt : string) (force_model : option string) (w : World) :
  let use_claude := fst (fst (run (choose_backend self env prompt force_model) w)) in
  let first := run (call_claude self env prompt) w in
  let out := run (route_request self env prompt force_model) w in
  (result (fst out), snd out)
  = if use_claude then
      if negb (success (fst first)) && get_fallback (fst first)
      then run (call_ollama self env prompt "mistral") (snd first)
      else first
    else run (call_ollama self env prompt "mistral") w.
Proof.
  intros use_claude first out. subst use_claude first out.
  pose proof (choose_backend_reads_only self env prompt force_model w) as Hw.
  unfold route_request, run, mbind, M_bind, mret, M_ret, read in *.
  destruct (choose_backend self env prompt force_model w) as [[b reason] w1].
  cbn in Hw. subst w1. cbn [fst snd]. destruct b.
  - destruct (call_claude self env prompt w) as [r w2]. cbn [fst snd].
    destruct (negb (success r) && get_fallback r).
    + now destruct (call_ollama self env prompt "mistral" w2).
    + reflexivity.
  - now destruct (call_ollama self env prompt "mistral" w).
Qed.

(** ** Fallback *)

(** C1, as the spec words it, fails when the chosen backend is the local
    one: with the local endpoint down, "fix this bug" is routed locally,
    the local call fails with [fallback = true], the paid client is never
    called and the local failure is what is returned. *)
Lemma no_fallback_from_local :
  ~ fallback_law paid_router env_local_down "fix this bug" None empty_world
  /\ fst (fst (run (choose_backend paid_router env_local_down "fix this bug" None)
                  empty_world)) = false
  /\ result (fst (run (route_request paid_router env_local_down
                         "fix this bug" None) empty_world))
     = Failure "connection refused" true
  /\ trace (snd (run (route_request paid_router env_local_down
                        "fix this bug" None) empty_world))
     = [OllamaCall "mistral" "fix this bug"].
Proof.
  split; [|split; [|split]]; try (vm_compute; reflexivity).
  unfold fallback_law. intros H.
  assert (E : fst (fst (run (choose_backend paid_router env_local_down
                               "fix this bug" None) empty_world)) = false)
    by (vm_compute; reflexivity).
  rewrite E in H. specialize (H eq_refl eq_refl).
  apply (f_equal (fun p => success (fst p))) in H.
  vm_compute in H. discriminate H.
Qed.

(** C1 (amended): the fallback is single-hop and goes from the paid
    backend to the local one only.  When the paid backend is chosen and
    its call fails with [fallback = true], the local client is called
    exactly once after it and [route_request] ends as that call does,
    success or failure.  When the local backend is chosen, [route_request]
    ends as the single local call does and the paid API is not called. *)
Theorem fallback_single_hop_from_paid (self : SmartAIRouter) (env : Env)
    (prompt : string) (force_model : option string) (w : World) :
  let use_claude := fst (fst (run (choose_backend self env prompt force_model) w)) in
  let first := run (call_claude self env prompt) w in
  let out := run (route_request self env prompt force_model) w in
  (use_claude = true ->
   success (fst first) = false -> get_fallback (fst first) = true ->
   (result (fst out), snd out)
   = run (call_ollama self env prompt "mistral") (snd first)
   /\ trace (snd out) = (trace (snd first) ++ [OllamaCall "mistral" prompt])%list
   /\ budget_file (snd out) = budget_file (snd first))
  /\ (use_claude = false ->
      (result (fst out), snd out)
      = run (call_ollama self env prompt "mistral") w
      /\ trace (snd out) = (trace w ++ [OllamaCall "mistral" prompt])%list
      /\ count is_claude_call (trace (snd out))
         = count is_claude_call (trace w)).
Proof.
  intros use_claude first out.
  pose proof (route_request_unfold self env prompt force_model w) as H.
  cbv zeta in H. fold use_claude first out in H.
  split.
  - intros Hc Hs Hf. rewrite Hc, Hs, Hf in H. cbn in H.
    split; [exact H|].
    apply (f_equal snd) in H. cbn [snd] in H.
    rewrite call_ollama_world in H. rewrite H. split; reflexivity.
  - intros Hc. rewrite Hc in H. split; [exact H|].
    apply (f_equal snd) in H. cbn [snd] in H.
    rewrite call_ollama_world in H. rewrite H. cbn [log trace].
    split; [reflexivity|]. rewrite count_snoc. cbn. lia.
Qed.

Lemma fallback_single_hop_from_paid_witness :
  result (fst (run (route_request paid_router env_paid_down
                      "design the system architecture" None) empty_world))
  = Success "local answer" "ollama-mistral" 0.0%float 0 0
  /\ result (fst (run (route_request paid_router env_local_down
                         "fix this bug" None) empty_world))
     = Failure "connection refused" true.
Proof.
  split.
  - destruct (fallback_single_hop_from_paid paid_router env_paid_down
                "design the system architecture" None empty_world)
      as [H _].
    specialize (H ltac:(vm_compute; reflexivity)
                  ltac:(vm_compute; reflexivity)
                  ltac:(vm_compute; reflexivity)).
    destruct H as [H _]. apply (f_equal fst) in H. exact H.
  - destruct (fallback_single_hop_from_paid paid_router env_local_down
                "fix this bug" None empty_world) as [_ H].
    specialize (H ltac:(vm_compute; reflexivity)).
    destruct H as [H _]. apply (f_equal fst) in H. exact H.
Defined.

(** ** The paid backend *)

(** [update_budget], one case per exit. *)
Lemma update_budget_trace (self : SmartAIRouter) (env : Env) (cost : float)
    (w : World) :
  (exists msg,
     budget_open env = Some msg
     /\ run (update_budget self env cost) w = (WriteRaised msg, w))
  \/ (exists kept,
        budget_open env = None
        /\ run (update_budget self env cost) w
           = (Written, {| budget_file := Some kept;
                          trace := trace w ++ [BudgetWrite kept] |})).
Proof.
  unfold run, update_budget.
  destruct (budget_open env) as [msg|]; [left | right]; eauto.
Qed.

(** [call_claude], one case per exit. *)
Lemma call_claude_cases (self : SmartAIRouter) (env : Env) (prompt : string)
    (w : World) :
  run (call_claude self env prompt) w
  = if claude_client self then
      match claude_api env prompt with
      | Returned text =>
          let cost := estimate_cost (config self) prompt text in
          match run (update_budget self env cost)
                    (log (ClaudeCall prompt) w) with
          | (Written, w') =>
              (Success text "claude-3-sonnet" cost
                 (estimate_tokens prompt) (estimate_tokens text), w')
          | (WriteRaised msg, w') => (Failure msg true, w')
          end
      | Raised msg => (Failure msg true, log (ClaudeCall prompt) w)
      end
    else (Failure "Claude API key nicht konfiguriert" true, w).
Proof.
  unfold run, call_claude. destruct (claude_client self); cbn [negb].
  - destruct (claude_api env prompt); reflexivity.
  - reflexivity.
Qed.

(** The exits of [call_claude], with what each leaves in the world. *)
Lemma call_claude_exits (self : SmartAIRouter) (env : Env) (prompt : string)
    (w : World) :
  let out := run (call_claude self env prompt) w in
  (claude_client self = false
   /\ out = (Failure "Claude API key nicht konfiguriert" true, w))
  \/ (exists msg,
        claude_client self = true
        /\ out = (Failure msg true, log (ClaudeCall prompt) w))
  \/ (exists text kept,
        claude_client self = true
        /\ claude_api env prompt = Returned text
        /\ budget_open env = None
        /\ run (update_budget self env
                  (estimate_cost (config self) prompt text))
               (log (ClaudeCall prompt) w)
           = (Written,
              {| budget_file := Some kept;
                 trace := (trace w ++ [ClaudeCall prompt])
                          ++ [BudgetWrite kept] |})
        /\ out = (Success text "claude-3-sonnet"
                    (estimate_cost (config self) prompt text)
                    (estimate_tokens prompt) (estimate_tokens text),
                  {| budget_file := Some kept;
                     trace := (trace w ++ [ClaudeCall prompt])
                              ++ [BudgetWrite kept] |})).
Proof.
  cbv zeta. rewrite call_claude_cases.
  destruct (claude_client self); [|left; split; reflexivity].
  right. destruct (claude_api env prompt) as [text|msg]; [|left; eauto].
  cbv zeta.
  destruct (update_budget_trace self env
              (estimate_cost (config self) prompt text)
              (log (ClaudeCall prompt) w))
    as [(msg & _ & Hupd)|(kept & Hopen & Hupd)].
  - left. rewrite Hupd. eauto.
  - right. exists text, kept. rewrite Hupd.
    split; [reflexivity|]. split; [reflexivity|]. split; [exact Hopen|].
    split; reflexivity.
Qed.

(** C6: without a credential [call_claude] fails at once with
    [fallback = true] and leaves the world as it was (no API call, ledger
    untouched); every failure of [call_claude] carries [fallback = true]
    and leaves the ledger file as it was; and [call_claude] writes the
    ledger once when it succeeds and not at all when it fails. *)
Theorem call_claude_failure_spares_ledger (self : SmartAIRouter) (env : Env)
    (prompt : string) (w : World) :
  let out := run (call_claude self env prompt) w in
  (claude_client self = false ->
   out = (Failure "Claude API key nicht konfiguriert" true, w))
  /\ (success (fst out) = false ->
      get_fallback (fst out) = true
      /\ budget_file (snd out) = budget_file w)
  /\ count is_budget_write (trace (snd out))
     = count is_budget_write (trace w) + (if success (fst out) then 1 else 0).
Proof.
  intros out.
  destruct (call_claude_exits self env prompt w)
    as [[Hc Hout]|[(msg & Hc & Hout)|(text & kept & Hc & _ & _ & _ & Hout)]];
    fold out in Hout; rewrite Hout; cbn [fst snd success get_fallback].
  - split; [reflexivity|]. split; [intros _; split; reflexivity | lia].
  - split; [congruence|]. split; [intros _; split; reflexivity|].
    cbn [log trace]. rewrite count_snoc. cbn. lia.
  - split; [congruence|]. split; [discriminate|].
    cbn [trace]. rewrite !count_snoc. cbn. lia.
Qed.

Lemma call_claude_failure_spares_ledger_witness :
  run (call_claude (init default_config) env_up "design the system")
      (world_with "2025-01" {| spent := 1.5%float; requests := 3 |})
  = (Failure "Claude API key nicht konfiguriert" true,
     world_with "2025-01" {| spent := 1.5%float; requests := 3 |})
  /\ budget_file
       (snd (run (call_claude paid_router env_paid_down "design the system")
                 (world_with "2025-01" {| spent := 1.5%float; requests := 3 |})))
     = budget_file (world_with "2025-01" {| spent := 1.5%float; requests := 3 |}).
Proof.
  split.
  - apply (call_claude_failure_spares_ledger (init default_config) env_up
             "design the system"
             (world_with "2025-01" {| spent := 1.5%float; requests := 3 |})).
    reflexivity.
  - apply (call_claude_failure_spares_ledger paid_router env_paid_down
             "design the system"
             (world_with "2025-01" {| spent := 1.5%float; requests := 3 |})).
    reflexivity.
Defined.

(** C8, the scenario as the spec words it, fails: a prompt of 400
    characters answered by 200 characters gives 100 and 50 tokens, but the
    cost computed at the default rates and recorded in the ledger is the
    double 0.0010500000000000002, not 0.00105. *)
Lemma scenario_cost_not_exact :
  let out := run (call_claude paid_router env_reply_200 (filler 400))
                 empty_world in
  fst out = Success (filler 200) "claude-3-sonnet"
              0.0010500000000000002%float 100 50
  /\ Status.spent (get_budget_status paid_router env_reply_200 (snd out))
     = 0.0010500000000000002%float
  /\ 0.0010500000000000002%float <> 0.00105%float.
Proof.
  split; [vm_compute; reflexivity|].
  split; [vm_compute; reflexivity|].
  intros E. apply (f_equal (fun x => (x =? 0.00105)%float)) in E.
  vm_compute in E. discriminate E.
Qed.

(** C8 (amended): a successful paid call is one where the API returned
    a text and the ledger was written; it estimates
    [input_tokens = len(prompt) // 4] and
    [output_tokens = len(text) // 4], computes
    [cost = input_tokens * cost_per_input_token
            + output_tokens * cost_per_output_token] in binary64 arithmetic,
    returns it and has passed it to [update_budget]; for 100 and 50 tokens
    at the default rates that double is 0.0010500000000000002. *)
Theorem call_claude_cost (self : SmartAIRouter) (env : Env)
    (prompt : string) (w : World) :
  success (fst (run (call_claude self env prompt) w)) = true ->
  (exists text,
     claude_api env prompt = Returned text
     /\ let input_tokens := (Z.of_nat (len prompt) / 4)%Z in
        let output_tokens := (Z.of_nat (len text) / 4)%Z in
        let cost :=
          (float_of_int input_tokens * cost_per_input_token (config self)
           + float_of_int output_tokens
             * cost_per_output_token (config self))%float in
        fst (run (call_claude self env prompt) w)
        = Success text "claude-3-sonnet" cost input_tokens output_tokens
        /\ run (update_budget self env cost) (log (ClaudeCall prompt) w)
           = (Written, snd (run (call_claude self env prompt) w)))
  /\ (float_of_int 100 * cost_per_input_token default_config
      + float_of_int 50 * cost_per_output_token default_config)%float
     = 0.0010500000000000002%float.
Proof.
  intros Hok. split; [|vm_compute; reflexivity].
  destruct (call_claude_exits self env prompt w)
    as [[_ Hout]|[(msg & _ & Hout)|(text & kept & _ & Hreply & _ & Hupd & Hout)]];
    rewrite Hout in Hok |- *; try discriminate Hok.
  exists text. split; [exact Hreply|]. cbv zeta. split; [reflexivity|].
  exact Hupd.
Qed.

Lemma call_claude_cost_witness :
  exists text,
    claude_api env_reply_200 (filler 400) = Returned text
    /\ fst (run (call_claude paid_router env_reply_200 (filler 400))
                empty_world)
       = Success text "claude-3-sonnet"
           (float_of_int 100 * 0.000003 + float_of_int (Z.of_nat (len text) / 4)
                                          * 0.000015)%float
           100 (Z.of_nat (len text) / 4).
Proof.
  destruct (call_claude_cost paid_router env_reply_200 (filler 400)
              empty_world) as [(text & Hreply & Hres & _) _];
    [vm_compute; reflexivity|].
  exists text. split; [exact Hreply | exact Hres].
Defined.

(** ** Empty prompts *)

(** C7, as the spec words it, fails: the empty prompt is not rejected;
    with the default configuration it is sent to the local backend, whose
    answer is returned. *)
Lemma empty_prompt_not_rejected :
  ~ rejects_empty_prompt (init default_config) env_up None empty_world
  /\ result (fst (run (route_request (init default_config) env_up "" None)
                     empty_world))
     = Success "local answer" "ollama-mistral" 0.0%float 0 0
  /\ trace (snd (run (route_request (init default_config) env_up "" None)
                    empty_world))
     = [OllamaCall "mistral" ""].
Proof.
  split; [|split; vm_compute; reflexivity].
  unfold rejects_empty_prompt. intros [H _]. vm_compute in H. discriminate H.
Qed.

Lemma call_claude_backend_calls (self : SmartAIRouter) (env : Env)
    (prompt : string) (w : World) :
  count is_backend_call (trace (snd (run (call_claude self env prompt) w)))
  = count is_backend_call (trace w) + (if claude_client self then 1 else 0).
Proof.
  destruct (call_claude_exits self env prompt w)
    as [[Hc Hout]|[(msg & Hc & Hout)|(text & kept & Hc & _ & _ & _ & Hout)]];
    rewrite Hout, Hc; cbn [snd log trace]; rewrite ?count_snoc; cbn; lia.
Qed.

Lemma empty_prompt_default_decision (self : SmartAIRouter) (env : Env)
    (w : World) :
  config self = default_config ->
  fst (fst (run (choose_backend self env "" None) w)) = false.
Proof.
  intros Hcfg. unfold run, choose_backend, should_escalate_to_claude. cbn [is_model].
  rewrite Hcfg.
  destruct (_ <=? 0)%float; [reflexivity|].
  destruct (_ <? 0.5)%float; reflexivity.
Qed.

(** C7 (amended): [route_request] does not validate its prompt.  The empty
    prompt is routed like any other: at least one request is sent to a
    backend, and with the default configuration and no forced backend
    [route_request] ends as the single local call does. *)
Theorem empty_prompt_reaches_backend (self : SmartAIRouter) (env : Env)
    (force_model : option string) (w : World) :
  let out := run (route_request self env "" force_model) w in
  count is_backend_call (trace w) < count is_backend_call (trace (snd out))
  /\ (config self = default_config -> force_model = None ->
      (result (fst out), snd out)
      = run (call_ollama self env "" "mistral") w).
Proof.
  intros out.
  pose proof (route_request_unfold self env "" force_model w) as H.
  cbv zeta in H. fold out in H. split.
  - apply (f_equal snd) in H. cbn [snd] in H.
    pose proof (call_claude_backend_calls self env "" w) as Hc.
    pose proof (call_claude_cases self env "" w) as Hcases.
    destruct (fst (fst (run (choose_backend self env "" force_model) w))).
    + destruct (negb _ && _) eqn:Hfb.
      * rewrite call_ollama_world in H. rewrite H. cbn [log trace].
        rewrite count_snoc, Hc. cbn. lia.
      * rewrite H, Hc. destruct (claude_client self); [lia|].
        rewrite Hcases in Hfb. cbn in Hfb. discriminate Hfb.
    + rewrite call_ollama_world in H. rewrite H. cbn [log trace].
      rewrite count_snoc. cbn. lia.
  - intros Hcfg ->.
    now rewrite (empty_prompt_default_decision self env w Hcfg) in H.
Qed.

Lemma empty_prompt_reaches_backend_witness :
  (result (fst (run (route_request (init default_config) env_up "" None)
                    empty_world)),
   snd (run (route_request (init default_config) env_up "" None) empty_world))
  = run (call_ollama (init default_config) env_up "" "mistral") empty_world.
Proof.
  apply (empty_prompt_reaches_backend (init default_config) env_up None
           empty_world); reflexivity.
Defined.

(** ** The ledger: sorting and pruning *)

Lemma str_le_neq_lt (a b : string) :
  String.le a b -> a <> b -> (a <? b)%string = true.
Proof.
  unfold String.le, String.leb, String.ltb. intros Hle Hne.
  destruct (a ?= b)%string eqn:E; [|reflexivity|contradiction].
  now apply String.compare_eq_iff in E.
Qed.

Lemma str_lt_not_le (a b : string) :
  (a <? b)%string = true -> ~ String.le b a.
Proof.
  unfold String.le, String.leb, String.ltb.
  rewrite (String.compare_antisym b a).
  destruct (a ?= b)%string; cbn; intros H Hle;
    [discriminate H | exact Hle | discriminate H].
Qed.

Lemma str_lt_neq (a b : string) : (a <? b)%string = true -> a <> b.
Proof.
  intros Hlt ->. apply (str_lt_not_le _ _ Hlt). reflexivity.
Qed.

Section Ledger.
Variable d : gmap string entry.

Lemma sorted_keys_perm : sorted_keys d ≡ₚ (map_to_list d).*1.
Proof. apply merge_sort_Permutation. Qed.

Lemma sorted_keys_elem (k : string) : k ∈ sorted_keys d <-> is_Some (d !! k).
Proof.
  rewrite sorted_keys_perm, list_elem_of_fmap. split.
  - intros ([k' e] & -> & Hin). apply elem_of_map_to_list in Hin. eauto.
  - intros [e He]. exists (k, e). split; [reflexivity|].
    now apply elem_of_map_to_list.
Qed.

Lemma sorted_keys_NoDup : NoDup (sorted_keys d).
Proof. rewrite sorted_keys_perm. apply NoDup_fst_map_to_list. Qed.

Lemma sorted_keys_sorted : StronglySorted String.le (sorted_keys d).
Proof. apply StronglySorted_merge_sort; apply _. Qed.

Lemma sorted_keys_length : length (sorted_keys d) = size d.
Proof.
  rewrite sorted_keys_perm, length_fmap. apply length_map_to_list.
Qed.

Lemma restrict_cons (m : string) (months : list string) :
  restrict d (m :: months)
  = match d !! m with
    | Some e => <[m := e]> (restrict d months)
    | None => restrict d months
    end.
Proof. unfold restrict. cbn. now destruct (d !! m). Qed.

Lemma restrict_lookup (months : list string) (k : string) :
  restrict d months !! k = if decide (k ∈ months) then d !! k else None.
Proof.
  induction months as [|m months IH].
  - rewrite decide_False by apply not_elem_of_nil. apply lookup_empty.
  - rewrite restrict_cons.
    destruct (decide (k = m)) as [->|Hne].
    + rewrite decide_True by apply list_elem_of_here.
      destruct (d !! m) as [e|] eqn:Hm.
      * apply lookup_insert_eq.
      * rewrite IH. now destruct (decide (m ∈ months)).
    + assert (Hmem : k ∈ m :: months <-> k ∈ months).
      { rewrite elem_of_cons. tauto. }
      assert (Hrest : (if decide (k ∈ m :: months) then d !! k else None)
                      = (if decide (k ∈ months) then d !! k else None)).
      { destruct (decide (k ∈ months)), (decide (k ∈ m :: months)); tauto. }
      rewrite Hrest, <- IH.
      destruct (d !! m); [apply lookup_insert_ne; congruence | reflexivity].
Qed.
End Ledger.

Lemma last3_length {A} (l : list A) : length (last3 l) = min 3 (length l).
Proof. unfold last3. rewrite length_drop. lia. Qed.

Lemma last3_split {A} (l : list A) : l = (take (length l - 3) l ++ last3 l)%list.
Proof. unfold last3. now rewrite take_drop. Qed.

Lemma last3_short {A} (l : list A) : length l <= 3 -> last3 l = l.
Proof.
  intros H. unfold last3. replace (length l - 3) with 0 by lia. reflexivity.
Qed.

Section Pruning.
Variable d : gmap string entry.

Let kept : gmap string entry := restrict d (last3 (sorted_keys d)).

Lemma last3_keys_present (k : string) :
  k ∈ last3 (sorted_keys d) -> is_Some (d !! k).
Proof.
  intros Hin. apply sorted_keys_elem.
  rewrite (last3_split (sorted_keys d)). apply elem_of_app. now right.
Qed.

Lemma kept_lookup (k : string) :
  kept !! k = if decide (k ∈ last3 (sorted_keys d)) then d !! k else None.
Proof. apply restrict_lookup. Qed.

Lemma kept_is_Some (k : string) :
  is_Some (kept !! k) <-> k ∈ last3 (sorted_keys d).
Proof.
  rewrite kept_lookup. destruct (decide (k ∈ last3 (sorted_keys d))) as [Hin|Hin].
  - split; [tauto|]. intros _. now apply last3_keys_present.
  - split; [intros [? ?]; discriminate | contradiction].
Qed.

Lemma kept_sub (k : string) (e : entry) :
  kept !! k = Some e -> d !! k = Some e.
Proof.
  rewrite kept_lookup. now destruct (decide (k ∈ last3 (sorted_keys d))).
Qed.

Lemma last3_keys_NoDup : NoDup (last3 (sorted_keys d)).
Proof.
  pose proof (sorted_keys_NoDup d) as H.
  rewrite (last3_split (sorted_keys d)) in H.
  now apply NoDup_app in H as (_ & _ & H).
Qed.

Lemma kept_size : size kept = min 3 (size d).
Proof.
  rewrite <- (size_dom (D := gset string) kept).
  assert (Hdom : dom kept = list_to_set (last3 (sorted_keys d))).
  { apply set_eq. intros k.
    rewrite elem_of_dom, elem_of_list_to_set. apply kept_is_Some. }
  rewrite Hdom, size_list_to_set by apply last3_keys_NoDup.
  now rewrite last3_length, sorted_keys_length.
Qed.

Lemma kept_greatest (k k' : string) :
  is_Some (kept !! k) -> is_Some (d !! k') -> kept !! k' = None ->
  (k' <? k)%string = true.
Proof.
  intros Hk Hk' Hout.
  apply kept_is_Some in Hk.
  assert (Hnot : k' ∉ last3 (sorted_keys d)).
  { intros Hin. apply kept_is_Some in Hin. rewrite Hout in Hin.
    now destruct Hin. }
  apply sorted_keys_elem in Hk'.
  rewrite (last3_split (sorted_keys d)) in Hk'.
  apply elem_of_app in Hk' as [Hk'|Hk']; [|contradiction].
  apply str_le_neq_lt; [|congruence].
  pose proof (sorted_keys_sorted d) as Hs.
  rewrite (last3_split (sorted_keys d)) in Hs.
  exact (StronglySorted_app_1_elem_of _ _ _ _ _ Hs Hk' Hk).
Qed.

Lemma kept_all : size d <= 3 -> kept = d.
Proof.
  intros Hsize. apply map_eq. intros k. rewrite kept_lookup.
  rewrite last3_short by (now rewrite sorted_keys_length).
  destruct (decide (k ∈ sorted_keys d)) as [Hin|Hin]; [reflexivity|].
  rewrite sorted_keys_elem in Hin. symmetry. now apply eq_None_not_Some.
Qed.

(** A key with three distinct greater keys in the ledger is pruned. *)
Lemma kept_drops_fourth (c k1 k2 k3 : string) :
  NoDup [k1; k2; k3] ->
  Forall (fun k => is_Some (d !! k) /\ (c <? k)%string = true) [k1; k2; k3] ->
  kept !! c = None.
Proof.
  intros Hnd Hall. apply eq_None_not_Some. intros Hc.
  apply kept_is_Some in Hc.
  assert (Hin : forall k, k ∈ [k1; k2; k3] -> k ∈ last3 (sorted_keys d)).
  { intros k Hk. rewrite Forall_forall in Hall.
    destruct (Hall k Hk) as [Hsome Hlt].
    apply sorted_keys_elem in Hsome.
    rewrite (last3_split (sorted_keys d)) in Hsome.
    apply elem_of_app in Hsome as [Hsome|Hsome]; [|exact Hsome].
    pose proof (sorted_keys_sorted d) as Hs.
    rewrite (last3_split (sorted_keys d)) in Hs.
    pose proof (StronglySorted_app_1_elem_of _ _ _ _ _ Hs Hsome Hc) as Hle.
    now apply str_lt_not_le in Hlt. }
  assert (Hnd4 : NoDup (c :: [k1; k2; k3])).
  { apply NoDup_cons. split; [|exact Hnd].
    intros Hk. rewrite Forall_forall in Hall.
    destruct (Hall c Hk) as [_ Hlt]. now apply str_lt_neq in Hlt. }
  assert (Hsub : c :: [k1; k2; k3] ⊆+ last3 (sorted_keys d)).
  { apply NoDup_submseteq; [exact Hnd4|].
    intros k [->|Hk]%elem_of_cons; auto. }
  apply submseteq_length in Hsub. rewrite last3_length in Hsub.
  change (length (c :: [k1; k2; k3])) with 4 in Hsub. lia.
Qed.
End Pruning.

(** ** Recording a cost *)

Lemma status_entry (self : SmartAIRouter) (env : Env) (w : World) :
  let st := get_budget_status self env w in
  Status.budget_data st !! now_month env
  = Some {| spent := Status.spent st; requests := Status.requests st |}.
Proof.
  unfold get_budget_status. cbn.
  destruct (load_budget w !! now_month env) as [e|] eqn:E.
  - rewrite E. cbn. now destruct e.
  - rewrite lookup_insert_eq. reflexivity.
Qed.

Lemma status_others (self : SmartAIRouter) (env : Env) (w : World)
    (k : string) :
  k <> now_month env ->
  Status.budget_data (get_budget_status self env w) !! k = load_budget w !! k.
Proof.
  intros Hne. unfold get_budget_status. cbn.
  destruct (load_budget w !! now_month env); [reflexivity|].
  apply lookup_insert_ne. congruence.
Qed.

(** What [update_budget] computes and, when the budget file can be opened
    for writing, persists: the current month's entry is its previous
    [spent] plus [cost] and its previous [requests] plus 1 (from zero when
    the month is new), the other months are as loaded, the three
    lexicographically greatest month keys are kept (all of them when there
    are at most three) with their entries, and the resulting ledger is
    written to the file in a single write. *)
Lemma update_budget_charges_then_prunes (self : SmartAIRouter) (env : Env)
    (cost : float) (w : World) :
  budget_open env = None ->
  let st := get_budget_status self env w in
  let charged :=
    alter (charge cost) (now_month env) (Status.budget_data st) in
  charged !! now_month env
  = Some {| spent := (Status.spent st + cost)%float;
            requests := (Status.requests st + 1)%Z |}
  /\ (forall k, k <> now_month env -> charged !! k = load_budget w !! k)
  /\ exists kept,
      run (update_budget self env cost) w
      = (Written, {| budget_file := Some kept;
                     trace := trace w ++ [BudgetWrite kept] |})
      /\ size kept = min 3 (size charged)
      /\ (forall k e, kept !! k = Some e -> charged !! k = Some e)
      /\ (forall k k', is_Some (kept !! k) -> is_Some (charged !! k') ->
                       kept !! k' = None -> (k' <? k)%string = true)
      /\ (size charged <= 3 -> kept = charged).
Proof.
  intros Hopen st charged. split; [|split].
  - subst charged. rewrite lookup_alter_eq. subst st.
    rewrite status_entry. reflexivity.
  - intros k Hne. subst charged st.
    rewrite lookup_alter_ne by congruence. now apply status_others.
  - exists (restrict charged (last3 (sorted_keys charged))).
    split; [unfold run, update_budget; now rewrite Hopen|].
    split; [apply kept_size|].
    split; [apply kept_sub|].
    split; [apply kept_greatest | apply kept_all].
Qed.

(** When the budget file cannot be opened for writing, [update_budget]
    raises, no write is made, the world is as before and the next status
    is the status before. *)
Lemma update_budget_unwritable (self : SmartAIRouter)
    (env : Env) (cost : float) (w : World) (msg : string) :
  budget_open env = Some msg ->
  run (update_budget self env cost) w = (WriteRaised msg, w)
  /\ get_budget_status self env (snd (run (update_budget self env cost) w))
     = get_budget_status self env w.
Proof.
  intros Hopen. unfold run, update_budget. rewrite Hopen.
  split; reflexivity.
Qed.

(** C5: the router of the default constructor persists nothing.  Its
    budget path keeps the [~] of [config_path] unexpanded, so in a
    directory without [~/ai-config] the budget file cannot be opened:
    [update_budget] raises, there is still no budget file, no write is in
    the trace, and the next status shows [spent = 0] and [requests = 0]
    although a cost of 0.25 was to be recorded. *)
Theorem default_router_persists_nothing :
  run (update_budget paid_router env_default_path 0.25%float) empty_world
  = (WriteRaised
       "[Errno 2] No such file or directory: '~/ai-config/budget_tracker.json'",
     empty_world)
  /\ budget_file
       (snd (run (update_budget paid_router env_default_path 0.25%float)
                 empty_world)) = None
  /\ Status.spent
       (get_budget_status paid_router env_default_path
          (snd (run (update_budget paid_router env_default_path 0.25%float)
                    empty_world)))
     = 0.0%float
  /\ Status.requests
       (get_budget_status paid_router env_default_path
          (snd (run (update_budget paid_router env_default_path 0.25%float)
                    empty_world)))
     = 0%Z.
Proof.
  destruct (update_budget_unwritable paid_router env_default_path 0.25%float
              empty_world
              "[Errno 2] No such file or directory: '~/ai-config/budget_tracker.json'"
              eq_refl) as [H1 H2].
  split; [exact H1|]. rewrite H2, H1. repeat split.
Qed.

Lemma status_of_absent_month (self : SmartAIRouter) (env : Env) (w : World)
    (d : gmap string entry) :
  budget_file w = Some d -> d !! now_month env = None ->
  Status.spent (get_budget_status self env w) = 0.0%float
  /\ Status.requests (get_budget_status self env w) = 0%Z.
Proof.
  intros Hfile Hnone. unfold get_budget_status, load_budget. cbn.
  rewrite Hfile, Hnone, lookup_insert_eq. split; reflexivity.
Qed.

Lemma charged_keys (self : SmartAIRouter) (env : Env) (cost : float)
    (w : World) (k : string) :
  is_Some (alter (charge cost) (now_month env)
             (Status.budget_data (get_budget_status self env w)) !! k)
  <-> k = now_month env \/ is_Some (load_budget w !! k).
Proof.
  destruct (String.eqb_spec k (now_month env)) as [->|Hne].
  - rewrite lookup_alter_eq, status_entry. cbn. split; [now left | eauto].
  - rewrite lookup_alter_ne by congruence.
    rewrite status_others by exact Hne. tauto.
Qed.

(** C10: the three greatest keys need not include the current month.
    When the ledger file already holds three distinct month keys greater
    than the current month and the write completes, [update_budget] drops
    the entry it has just charged before writing: the file written holds
    exactly three months, with the entries they had, each of them greater
    than every month dropped and than the current month, it has no entry
    for the current month, and the next [get_budget_status] reports
    [spent = 0] and [requests = 0]. *)
Theorem current_month_pruned (self : SmartAIRouter) (env : Env)
    (cost : float) (w : World) (d : gmap string entry) (k1 k2 k3 : string) :
  budget_file w = Some d ->
  NoDup [k1; k2; k3] ->
  Forall (fun k => is_Some (d !! k) /\ (now_month env <? k)%string = true)
         [k1; k2; k3] ->
  fst (run (update_budget self env cost) w) = Written ->
  let w' := snd (run (update_budget self env cost) w) in
  exists kept,
    budget_file w' = Some kept
    /\ trace w' = (trace w ++ [BudgetWrite kept])%list
    /\ kept !! now_month env = None
    /\ size kept = 3
    /\ (forall k e, kept !! k = Some e -> d !! k = Some e)
    /\ (forall k k', is_Some (kept !! k) ->
                     is_Some (d !! k') \/ k' = now_month env ->
                     kept !! k' = None -> (k' <? k)%string = true)
    /\ Status.spent (get_budget_status self env w') = 0.0%float
    /\ Status.requests (get_budget_status self env w') = 0%Z.
Proof.
  intros Hfile Hnd Hall Hwritten w'.
  set (charged := alter (charge cost) (now_month env)
                    (Status.budget_data (get_budget_status self env w))).
  assert (Hload : load_budget w = d) by (unfold load_budget; now rewrite Hfile).
  assert (Hin : forall k, k ∈ [k1; k2; k3] ->
                  is_Some (charged !! k) /\ (now_month env <? k)%string = true).
  { rewrite Forall_forall in Hall. intros k Hk.
    destruct (Hall k Hk) as [Hsome Hlt]. split; [|exact Hlt].
    apply (charged_keys self env cost w k). right. now rewrite Hload. }
  assert (Hgone : restrict charged (last3 (sorted_keys charged))
                  !! now_month env = None).
  { apply (kept_drops_fourth charged (now_month env) k1 k2 k3 Hnd).
    rewrite Forall_forall. exact Hin. }
  assert (Hthree : 3 <= size charged).
  { rewrite <- sorted_keys_length.
    change 3 with (length [k1; k2; k3]). apply submseteq_length.
    apply NoDup_submseteq; [exact Hnd|].
    intros k Hk. apply sorted_keys_elem. now apply Hin. }
  assert (Hw' : w' = {| budget_file :=
                          Some (restrict charged (last3 (sorted_keys charged)));
                        trace := trace w
                                 ++ [BudgetWrite
                                       (restrict charged
                                          (last3 (sorted_keys charged)))] |}).
  { subst w'. revert Hwritten. unfold run, update_budget.
    now destruct (budget_open env). }
  exists (restrict charged (last3 (sorted_keys charged))).
  clearbody w'. subst w'. cbn [budget_file trace].
  split; [reflexivity|]. split; [reflexivity|]. split; [exact Hgone|].
  split; [pose proof (kept_size charged) as Hs; cbv zeta in Hs; lia|].
  split; [|split].
  - intros k e Hk.
    assert (Hne : k <> now_month env) by (intros ->; congruence).
    apply kept_sub in Hk. subst charged.
    rewrite lookup_alter_ne in Hk by congruence.
    rewrite status_others in Hk by exact Hne. now rewrite Hload in Hk.
  - intros k k' Hk Hk' Hout.
    apply (kept_greatest charged k k' Hk); [|exact Hout].
    apply (charged_keys self env cost w k'). rewrite Hload. tauto.
  - apply (status_of_absent_month self env
             {| budget_file := Some _; trace := _ |} _ eq_refl Hgone).
Qed.

Lemma current_month_pruned_witness :
  exists kept,
    budget_file (snd (run (update_budget paid_router env_up 0.25%float)
                          world_ahead)) = Some kept
    /\ kept !! "2025-01" = None
    /\ size kept = 3
    /\ Status.spent (get_budget_status paid_router env_up
                       (snd (run (update_budget paid_router env_up 0.25%float)
                                 world_ahead))) = 0.0%float.
Proof.
  destruct (current_month_pruned paid_router env_up 0.25%float world_ahead
              (list_to_map
                 [("2025-02", {| spent := 1.0%float; requests := 2%Z |});
                  ("2025-03", {| spent := 0.5%float; requests := 1%Z |});
                  ("2025-04", zero_entry)])
              "2025-02" "2025-03" "2025-04")
    as (kept & Hfile & _ & Hgone & Hsize & _ & _ & Hspent & _).
  - reflexivity.
  - compute_done.
  - repeat constructor; vm_compute; eauto.
  - reflexivity.
  - exists kept. repeat split; assumption.
Defined.

(** The ordinary month roll-over: the oldest of four months is dropped and
    the new month is charged from zero. *)
Example update_budget_rollover :
  budget_file
    (snd (run (update_budget paid_router env_up 0.25%float)
              {| budget_file :=
                   Some (list_to_map
                           [("2024-10", {| spent := 2.0%float; requests := 7%Z |});
                            ("2024-11", {| spent := 1.0%float; requests := 2%Z |});
                            ("2024-12", {| spent := 0.5%float; requests := 1%Z |})]);
                 trace := [] |}))
  = Some (list_to_map
            [("2024-11", {| spent := 1.0%float; requests := 2%Z |});
             ("2024-12", {| spent := 0.5%float; requests := 1%Z |});
             ("2025-01", {| spent := 0.25%float; requests := 1%Z |})]).
Proof. vm_compute. reflexivity. Qed.

(** * Further facts *)

(** ** The ledger in normal operation *)

(** The greatest key of a ledger survives the pruning with its entry. *)
Lemma kept_keeps_greatest (d : gmap string entry) (c : string) :
  is_Some (d !! c) ->
  (forall k, is_Some (d !! k) -> String.le k c) ->
  restrict d (last3 (sorted_keys d)) !! c = d !! c.
Proof.
  intros Hc Hmax.
  destruct (restrict d (last3 (sorted_keys d)) !! c) as [e|] eqn:Hkept.
  { symmetry. now apply kept_sub. }
  exfalso.
  assert (Hne : restrict d (last3 (sorted_keys d)) ≠ ∅).
  { intros Hempty.
    pose proof (kept_size d) as Hsize. cbv zeta in Hsize.
    rewrite Hempty, map_size_empty in Hsize.
    destruct Hc as [e He].
    assert (size d ≠ 0) by (apply map_size_non_empty_iff; intros ->;
                            now rewrite lookup_empty in He).
    lia. }
  apply map_choose in Hne as (k & e & Hk).
  assert (Hlt : (c <? k)%string = true).
  { apply (kept_greatest d k c); [now exists e | exact Hc | exact Hkept]. }
  apply (str_lt_not_le _ _ Hlt). apply Hmax. exists e. now apply kept_sub.
Qed.

(** [update_budget] has two exits.  Either the budget file cannot be
    opened, it raises and the world is as it was; or it leaves a file with
    at most three months, each of them the current month or a month that
    was already stored, the entries of the other months being as they
    were. *)
Theorem update_budget_keeps_at_most_three (self : SmartAIRouter) (env : Env)
    (cost : float) (w : World) :
  let out := run (update_budget self env cost) w in
  match fst out with
  | WriteRaised msg => budget_open env = Some msg /\ snd out = w
  | Written =>
      budget_open env = None
      /\ exists kept,
           budget_file (snd out) = Some kept
           /\ size kept <= 3
           /\ (forall k, is_Some (kept !! k) ->
                         k = now_month env \/ is_Some (load_budget w !! k))
           /\ (forall k e, k <> now_month env -> kept !! k = Some e ->
                           load_budget w !! k = Some e)
  end.
Proof.
  cbv zeta. unfold run, update_budget.
  destruct (budget_open env) as [msg|]; cbn [fst snd]; [split; reflexivity|].
  split; [reflexivity|].
  set (charged := alter (charge cost) (now_month env)
                    (Status.budget_data (get_budget_status self env w))).
  exists (restrict charged (last3 (sorted_keys charged))).
  split; [reflexivity|]. split; [|split].
  - pose proof (kept_size charged) as H. cbv zeta in H. lia.
  - intros k [e Hk]. apply kept_sub in Hk.
    apply (charged_keys self env cost w k). now exists e.
  - intros k e Hne Hk. apply kept_sub in Hk. subst charged.
    rewrite lookup_alter_ne in Hk by congruence.
    now rewrite status_others in Hk.
Qed.

(** One completed [update_budget] when no stored month is later than the
    current one. *)
Lemma update_budget_latest (self : SmartAIRouter) (env : Env) (cost : float)
    (w : World) :
  budget_open env = None ->
  (forall k, is_Some (load_budget w !! k) -> String.le k (now_month env)) ->
  let st := get_budget_status self env w in
  let w' := snd (run (update_budget self env cost) w) in
  load_budget w' !! now_month env
  = Some {| spent := (Status.spent st + cost)%float;
            requests := (Status.requests st + 1)%Z |}
  /\ (forall k, is_Some (load_budget w' !! k) -> String.le k (now_month env))
  /\ trace w' = (trace w ++ [BudgetWrite (load_budget w')])%list.
Proof.
  intros Hopen Hmax st w'.
  set (charged := alter (charge cost) (now_month env)
                    (Status.budget_data st)).
  assert (Hcur : charged !! now_month env
                 = Some {| spent := (Status.spent st + cost)%float;
                           requests := (Status.requests st + 1)%Z |}).
  { subst charged st. rewrite lookup_alter_eq, status_entry. reflexivity. }
  assert (Hle : forall k, is_Some (charged !! k) -> String.le k (now_month env)).
  { intros k Hk. apply (charged_keys self env cost w k) in Hk as [->|Hk].
    - reflexivity.
    - now apply Hmax. }
  assert (Hw' : w' = {| budget_file :=
                          Some (restrict charged (last3 (sorted_keys charged)));
                        trace := trace w
                                 ++ [BudgetWrite
                                       (restrict charged
                                          (last3 (sorted_keys charged)))] |}).
  { subst w'. unfold run, update_budget. now rewrite Hopen. }
  clearbody w'. subst w'. cbn [load_budget budget_file trace].
  split; [|split].
  - rewrite kept_keeps_greatest; [exact Hcur | rewrite Hcur; eauto | exact Hle].
  - intros k [e Hk]. apply Hle. exists e. now apply kept_sub.
  - reflexivity.
Qed.

Lemma update_budget_raises (self : SmartAIRouter) (env : Env) (cost : float)
    (w : World) (msg : string) :
  budget_open env = Some msg ->
  run (update_budget self env cost) w = (WriteRaised msg, w).
Proof. intros Hopen. unfold run, update_budget. now rewrite Hopen. Qed.

Lemma status_of_stored_month (self : SmartAIRouter) (env : Env) (w : World)
    (e : entry) :
  load_budget w !! now_month env = Some e ->
  Status.spent (get_budget_status self env w) = spent e
  /\ Status.requests (get_budget_status self env w) = requests e.
Proof.
  intros He. unfold get_budget_status. cbn. rewrite He. cbn. rewrite He.
  split; reflexivity.
Qed.

(** A recorded cost is read back exactly when the write completes.  With
    no stored month later than the current one, the status read after a
    completed [update_budget cost] shows the previous [spent] plus [cost],
    one request more, and the remaining budget computed from the new
    [spent]; after an [update_budget] that raised, the status is what it
    was and the cost is lost. *)
Theorem update_budget_then_status (self : SmartAIRouter) (env : Env)
    (cost : float) (w : World) :
  (forall k, is_Some (load_budget w !! k) -> String.le k (now_month env)) ->
  let before := get_budget_status self env w in
  let out := run (update_budget self env cost) w in
  let after := get_budget_status self env (snd out) in
  match fst out with
  | Written =>
      Status.spent after = (Status.spent before + cost)%float
      /\ Status.requests after = (Status.requests before + 1)%Z
      /\ Status.remaining after
         = (monthly_budget (config self) - (Status.spent before + cost))%float
  | WriteRaised _ => after = before
  end.
Proof.
  intros Hmax before out after.
  destruct (budget_open env) as [msg|] eqn:Hopen.
  - subst after out. rewrite (update_budget_raises self env cost w msg Hopen).
    reflexivity.
  - destruct (update_budget_latest self env cost w Hopen Hmax)
      as (Hcur & _ & _).
    destruct (status_of_stored_month self env _ _ Hcur) as [Hs Hr].
    assert (Hfst : fst out = Written).
    { subst out. unfold run, update_budget. now rewrite Hopen. }
    rewrite Hfst. subst after out. split; [exact Hs|]. split; [exact Hr|].
    unfold get_budget_status at 1. cbn [Status.remaining].
    fold (get_budget_status self env
            (snd (run (update_budget self env cost) w))).
    unfold get_budget_status in Hs. cbn [Status.spent] in Hs.
    now rewrite Hs.
Qed.

Lemma update_budget_then_status_witness :
  Status.spent
    (get_budget_status paid_router env_up
       (snd (run (update_budget paid_router env_up 0.25%float)
                 (world_with "2024-12" {| spent := 1.5%float; requests := 3 |}))))
  = (0 + 0.25)%float
  /\ get_budget_status paid_router env_default_path
       (snd (run (update_budget paid_router env_default_path 0.25%float)
                 empty_world))
     = get_budget_status paid_router env_default_path empty_world.
Proof.
  split.
  - apply (update_budget_then_status paid_router env_up 0.25%float
             (world_with "2024-12" {| spent := 1.5%float; requests := 3 |})).
    intros k [e Hk]. cbn in Hk.
    apply lookup_singleton_Some in Hk as [<- _]. vm_compute. exact I.
  - apply (update_budget_then_status paid_router env_default_path 0.25%float
             empty_world).
    intros k [e Hk]. cbn in Hk. now rewrite lookup_empty in Hk.
Defined.

(** Costs recorded one after the other add up when the budget file can be
    written: after [update_budget] has run for each cost of a list, in a
    ledger with no month later than the current one, the status shows the
    costs added in that order to the previous [spent], as many requests
    more as there were costs, and the ledger was written once per cost.
    When the file cannot be opened nothing is recorded, however many costs
    there are. *)
Theorem update_budget_accumulates (self : SmartAIRouter) (env : Env)
    (costs : list float) (w : World) :
  (forall k, is_Some (load_budget w !! k) -> String.le k (now_month env)) ->
  let record := fun w cost => snd (run (update_budget self env cost) w) in
  let before := get_budget_status self env w in
  let after := get_budget_status self env (foldl record w costs) in
  match budget_open env with
  | None =>
      Status.spent after
      = foldl (fun total cost => (total + cost)%float)
              (Status.spent before) costs
      /\ Status.requests after
         = (Status.requests before + Z.of_nat (length costs))%Z
      /\ count is_budget_write (trace (foldl record w costs))
         = count is_budget_write (trace w) + length costs
  | Some _ => foldl record w costs = w
  end.
Proof.
  cbv zeta. destruct (budget_open env) as [msg|] eqn:Hopen.
  - intros _. induction costs as [|cost costs IH]; [reflexivity|].
    cbn [foldl]. now rewrite (update_budget_raises self env cost w msg Hopen).
  - revert w. induction costs as [|cost costs IH]; intros w Hmax.
    + cbn. split; [reflexivity|]. split; lia.
    + cbn [foldl length].
      destruct (update_budget_latest self env cost w Hopen Hmax)
        as (Hcur & Hmax' & Htr).
      destruct (status_of_stored_month self env _ _ Hcur) as [Hs Hr].
      destruct (IH _ Hmax') as (IHs & IHr & IHt).
      rewrite IHs, IHr, IHt, Hs, Hr, Htr, count_snoc. cbn.
      split; [reflexivity|]. split; lia.
Qed.

Lemma update_budget_accumulates_witness :
  Status.requests
    (get_budget_status paid_router env_up
       (foldl (fun w cost => snd (run (update_budget paid_router env_up cost) w))
              empty_world [0.25%float; 0.5%float; 0.125%float]))
  = (0 + 3)%Z
  /\ foldl (fun w cost =>
              snd (run (update_budget paid_router env_default_path cost) w))
           empty_world [0.25%float; 0.5%float; 0.125%float]
     = empty_world.
Proof.
  split.
  - apply (update_budget_accumulates paid_router env_up
             [0.25%float; 0.5%float; 0.125%float] empty_world).
    intros k [e Hk]. cbn in Hk. now rewrite lookup_empty in Hk.
  - apply (update_budget_accumulates paid_router env_default_path
             [0.25%float; 0.5%float; 0.125%float] empty_world).
    intros k [e Hk]. cbn in Hk. now rewrite lookup_empty in Hk.
Defined.

(** ** The routing decision *)

(** With no forced backend the paid backend is chosen exactly when both
    budget tests let the request through, no force-local keyword is found,
    and a force-paid keyword is found or the prompt has more than 1000
    characters. *)
Theorem paid_decision_iff (self : SmartAIRouter) (env : Env)
    (prompt : string) (w : World) :
  let remaining := Status.remaining (get_budget_status self env w) in
  fst (fst (run (should_escalate_to_claude self env prompt) w)) = true
  <-> (remaining <=? 0)%float = false
      /\ (remaining <? 0.5)%float = false
      /\ any_in (ollama_keywords (config self)) (lower prompt) = false
      /\ (any_in (escalation_keywords (config self)) (lower prompt) = true
          \/ 1000 < len prompt).
Proof.
  intros remaining. unfold run, should_escalate_to_claude. fold remaining.
  destruct (remaining <=? 0)%float; [cbn; intuition discriminate|].
  destruct (remaining <? 0.5)%float; [cbn; intuition discriminate|].
  destruct (any_in (ollama_keywords (config self)) (lower prompt));
    [cbn; intuition discriminate|].
  destruct (any_in (escalation_keywords (config self)) (lower prompt));
    [cbn; intuition|].
  destruct (Nat.ltb_spec 1000 (len prompt)); cbn.
  - intuition.
  - split; [discriminate|]. intros (_ & _ & _ & [H'|H']); [discriminate | lia].
Qed.

Lemma prefix_of_lower_is_lower (keyword s : string) :
  String.prefix keyword (lower s) = true -> lower keyword = keyword.
Proof.
  revert s. induction keyword as [|a keyword IH]; intros s H; [reflexivity|].
  destruct s as [|c s]; cbn in H; [discriminate|].
  destruct (ascii_dec a (lower_ascii c)) as [->|]; [|discriminate].
  cbn. rewrite lower_ascii_idem. f_equal. now apply (IH s).
Qed.

Lemma str_in_lower_is_lower (keyword s : string) :
  str_in keyword (lower s) = true -> lower keyword = keyword.
Proof.
  induction s as [|c s IH]; cbn [lower str_in]; intros H.
  - rewrite orb_false_r in H. now apply (prefix_of_lower_is_lower keyword "").
  - apply orb_true_iff in H as [H|H]; [|now apply IH].
    now apply (prefix_of_lower_is_lower keyword (String c s)).
Qed.

(** A configured keyword that holds an upper-case letter (one that
    [lower] changes) is found in no prompt: the keyword tests compare it
    with the lower-cased prompt. *)
Theorem uppercase_keyword_is_dead (keyword prompt : string) :
  lower keyword <> keyword ->
  str_in keyword (lower prompt) = false.
Proof.
  intros Hup. destruct (str_in keyword (lower prompt)) eqn:H; [|reflexivity].
  now apply str_in_lower_is_lower in H.
Qed.

Lemma uppercase_keyword_is_dead_witness :
  str_in "Refactor" (lower "Refactor this module") = false.
Proof.
  apply (uppercase_keyword_is_dead "Refactor" "Refactor this module").
  discriminate.
Defined.

Lemma str_in_empty (s : string) : str_in "" s = true.
Proof. destruct s; reflexivity. Qed.

(** An empty string among the force-local keywords matches every prompt:
    with no forced backend every request is then sent to the local
    backend, however long it is and whatever force-paid keywords it
    holds. *)
Theorem empty_local_keyword_routes_all_local (self : SmartAIRouter)
    (env : Env) (prompt : string) (w : World) :
  In "" (ollama_keywords (config self)) ->
  fst (fst (run (should_escalate_to_claude self env prompt) w)) = false.
Proof.
  intros Hin.
  apply (local_match_routes_local self env prompt w).
  apply any_in_true. exists "". split; [exact Hin | apply str_in_empty].
Qed.

Lemma empty_local_keyword_routes_all_local_witness :
  fst (fst (run (should_escalate_to_claude
                   {| config :=
                        {| claude_api_key := "key";
                           ollama_base_url := "http://localhost:11434";
                           monthly_budget := 5.0%float;
                           warning_threshold := 4.0%float;
                           escalation_keywords := ["design"];
                           ollama_keywords := [""];
                           cost_per_input_token := 0.000003%float;
                           cost_per_output_token := 0.000015%float |};
                      claude_client := true |}
                   env_up "design the system") empty_world)) = false.
Proof.
  apply empty_local_keyword_routes_all_local. cbn. tauto.
Defined.

(** ** Requests *)

(** The local client: its effect on the world and the shape of its
    result. *)
Lemma call_ollama_cases (self : SmartAIRouter) (env : Env)
    (prompt model : string) (w : World) :
  run (call_ollama self env prompt model) w
  = (match ollama_api env (ollama_base_url (config self) ++ "/api/generate")
             model prompt with
     | Returned text => Success text ("ollama-" ++ model) 0.0%float 0 0
     | Raised msg => Failure msg true
     end, log (OllamaCall model prompt) w).
Proof.
  unfold run, call_ollama. now destruct (ollama_api env _ model prompt).
Qed.

Lemma call_claude_always_falls_back (self : SmartAIRouter) (env : Env)
    (prompt : string) (w : World) :
  success (fst (run (call_claude self env prompt) w)) = false ->
  get_fallback (fst (run (call_claude self env prompt) w)) = true.
Proof.
  destruct (call_claude_exits self env prompt w)
    as [[_ Hout]|[(msg & _ & Hout)|(text & kept & _ & _ & _ & _ & Hout)]];
    rewrite Hout; cbn [fst success get_fallback]; congruence.
Qed.

Lemma call_claude_failure_writes (self : SmartAIRouter) (env : Env)
    (prompt : string) (w : World) :
  count is_budget_write (trace (snd (run (call_claude self env prompt) w)))
  = count is_budget_write (trace w)
    + (if success (fst (run (call_claude self env prompt) w)) then 1 else 0).
Proof.
  destruct (call_claude_exits self env prompt w)
    as [[_ Hout]|[(msg & _ & Hout)|(text & kept & _ & _ & _ & _ & Hout)]];
    rewrite Hout; cbn [fst snd success log trace]; rewrite ?count_snoc;
    cbn; lia.
Qed.

(** A call of the paid client whose ledger write raises. *)
Lemma call_claude_write_raises (self : SmartAIRouter) (env : Env)
    (prompt text msg : string) (w : World) :
  claude_client self = true ->
  claude_api env prompt = Returned text ->
  budget_open env = Some msg ->
  run (call_claude self env prompt) w
  = (Failure msg true, log (ClaudeCall prompt) w).
Proof.
  intros Hclient Hreply Hopen.
  rewrite call_claude_cases, Hclient, Hreply. cbv zeta.
  now rewrite (update_budget_raises self env _ _ msg Hopen).
Qed.

(** A call of the paid client that is answered and recorded. *)
Lemma call_claude_recorded (self : SmartAIRouter) (env : Env)
    (prompt text : string) (w : World) :
  claude_client self = true ->
  claude_api env prompt = Returned text ->
  budget_open env = None ->
  run (call_claude self env prompt) w
  = (Success text "claude-3-sonnet"
       (estimate_cost (config self) prompt text)
       (estimate_tokens prompt) (estimate_tokens text),
     snd (run (update_budget self env
                 (estimate_cost (config self) prompt text))
              (log (ClaudeCall prompt) w))).
Proof.
  intros Hclient Hreply Hopen.
  rewrite call_claude_cases, Hclient, Hreply. cbv zeta.
  unfold run, update_budget at 1 2. now rewrite Hopen.
Qed.

(** What [route_request] adds to the backend's result. *)
Lemma route_request_annotations (self : SmartAIRouter) (env : Env)
    (prompt : string) (force_model : option string) (w : World) :
  let out := run (route_request self env prompt force_model) w in
  budget_status (fst out) = get_budget_status self env (snd out)
  /\ routing_reason (fst out)
     = snd (fst (run (choose_backend self env prompt force_model) w)).
Proof.
  cbv zeta.
  unfold route_request, run, mbind, M_bind, mret, M_ret, read.
  destruct (choose_backend self env prompt force_model w) as [[b reason] w1].
  cbn [fst snd]. destruct b.
  - destruct (call_claude self env prompt w1) as [r w2].
    destruct (negb (success r) && get_fallback r).
    + destruct (call_ollama self env prompt "mistral" w2). split; reflexivity.
    + split; reflexivity.
  - destruct (call_ollama self env prompt "mistral" w1). split; reflexivity.
Qed.

(** Forcing "claude" overrides the budget gate: with a client the paid
    API is requested whatever the ledger says, exhausted budget included.
    When it answers and the ledger can be written, the request ends as
    [call_claude] does, succeeds and is charged once; when the write
    raises, the answer is dropped, no write is made, and the request ends
    as the local call made after the paid request does. *)
Theorem forced_claude_ignores_budget (self : SmartAIRouter) (env : Env)
    (prompt text : string) (w : World) :
  claude_client self = true ->
  claude_api env prompt = Returned text ->
  let out := run (route_request self env prompt (Some "claude")) w in
  routing_reason (fst out) = "Erzwungen: Claude"
  /\ match budget_open env with
     | None =>
         (result (fst out), snd out) = run (call_claude self env prompt) w
         /\ result (fst out)
            = Success text "claude-3-sonnet"
                (estimate_cost (config self) prompt text)
                (estimate_tokens prompt) (estimate_tokens text)
         /\ count is_budget_write (trace (snd out))
            = count is_budget_write (trace w) + 1
     | Some _ =>
         (result (fst out), snd out)
         = run (call_ollama self env prompt "mistral")
               (log (ClaudeCall prompt) w)
         /\ count is_budget_write (trace (snd out))
            = count is_budget_write (trace w)
     end.
Proof.
  intros Hclient Hreply out.
  split; [apply (route_request_annotations self env prompt (Some "claude") w)|].
  pose proof (route_request_unfold self env prompt (Some "claude") w) as H.
  cbv zeta in H. fold out in H.
  change (fst (fst (run (choose_backend self env prompt (Some "claude")) w)))
    with true in H.
  destruct (budget_open env) as [msg|] eqn:Hopen.
  - rewrite (call_claude_write_raises self env prompt text msg w
               Hclient Hreply Hopen) in H.
    cbn [fst snd success get_fallback negb andb] in H.
    split; [exact H|].
    pose proof (f_equal snd H) as H2. cbn [snd] in H2.
    rewrite call_ollama_world in H2. rewrite H2. cbn [log trace].
    rewrite !count_snoc. cbn. lia.
  - pose proof (call_claude_recorded self env prompt text w
                  Hclient Hreply Hopen) as Hrec.
    pose proof (call_claude_failure_writes self env prompt w) as Hw.
    rewrite Hrec in H, Hw |- *. cbn [fst snd success negb andb] in H, Hw.
    pose proof (f_equal fst H) as H1. pose proof (f_equal snd H) as H2.
    cbn [fst snd] in H1, H2.
    split; [exact H|]. split; [exact H1|]. now rewrite H2.
Qed.

Lemma forced_claude_ignores_budget_witness :
  routing_reason
    (fst (run (route_request paid_router env_up "fix this bug" (Some "claude"))
              (world_with "2025-01" {| spent := 5.0%float; requests := 9 |})))
  = "Erzwungen: Claude"
  /\ result
       (fst (run (route_request paid_router env_up "fix this bug"
                    (Some "claude"))
                 (world_with "2025-01" {| spent := 5.0%float; requests := 9 |})))
     = Success "paid answer" "claude-3-sonnet"
         (estimate_cost default_config "fix this bug" "paid answer")
         (estimate_tokens "fix this bug") (estimate_tokens "paid answer").
Proof.
  destruct (forced_claude_ignores_budget paid_router env_up "fix this bug"
              "paid answer"
              (world_with "2025-01" {| spent := 5.0%float; requests := 9 |})
              eq_refl eq_refl) as (H1 & _ & H2 & _).
  split; [exact H1 | exact H2].
Defined.

(** Forcing "ollama" keeps the request local and free: [route_request]
    ends as the single local call does, the paid API is not requested and
    the ledger file is not touched, whatever the budget and the prompt. *)
Theorem forced_ollama_stays_local (self : SmartAIRouter) (env : Env)
    (prompt : string) (w : World) :
  let out := run (route_request self env prompt (Some "ollama")) w in
  (result (fst out), snd out)
  = run (call_ollama self env prompt "mistral") w
  /\ trace (snd out) = (trace w ++ [OllamaCall "mistral" prompt])%list
  /\ budget_file (snd out) = budget_file w
  /\ routing_reason (fst out) = "Erzwungen: Ollama".
Proof.
  intros out.
  pose proof (route_request_unfold self env prompt (Some "ollama") w) as H.
  cbv zeta in H. fold out in H.
  change (fst (fst (run (choose_backend self env prompt (Some "ollama")) w)))
    with false in H.
  pose proof (f_equal snd H) as H2. cbn [snd] in H2.
  rewrite call_ollama_world in H2.
  split; [exact H|]. rewrite H2. split; [reflexivity|]. split; [reflexivity|].
  apply (route_request_annotations self env prompt (Some "ollama") w).
Qed.

(** A request fails only through the local backend: when [route_request]
    returns a failure, the local endpoint raised and the failure carries
    that error with [fallback = true] (an error of the paid API is never
    what the caller sees); when the local endpoint answers, the request
    succeeds. *)
Theorem request_fails_only_locally (self : SmartAIRouter) (env : Env)
    (prompt : string) (force_model : option string) (w : World) :
  let out := run (route_request self env prompt force_model) w in
  let reply :=
    ollama_api env (ollama_base_url (config self) ++ "/api/generate")
               "mistral" prompt in
  (success (result (fst out)) = false ->
   exists msg, reply = Raised msg /\ result (fst out) = Failure msg true)
  /\ (forall text, reply = Returned text -> success (result (fst out)) = true).
Proof.
  intros out reply.
  pose proof (route_request_unfold self env prompt force_model w) as H.
  cbv zeta in H. fold out in H.
  pose proof (call_claude_always_falls_back self env prompt w) as Hfb.
  assert (Hlocal : forall w1,
    fst (run (call_ollama self env prompt "mistral") w1)
    = match reply with
      | Returned text => Success text "ollama-mistral" 0.0%float 0 0
      | Raised msg => Failure msg true
      end).
  { intros w1. rewrite call_ollama_cases. reflexivity. }
  assert (Hres : result (fst out)
                 = match reply with
                   | Returned text => Success text "ollama-mistral" 0.0%float 0 0
                   | Raised msg => Failure msg true
                   end
                 \/ success (result (fst out)) = true).
  { apply (f_equal fst) in H. cbn [fst] in H.
    destruct (fst (fst (run (choose_backend self env prompt force_model) w))).
    - destruct (success (fst (run (call_claude self env prompt) w))) eqn:Hs.
      + right. cbn in H. now rewrite H.
      + rewrite (Hfb eq_refl) in H. cbn in H. left. now rewrite H, Hlocal.
    - left. now rewrite H, Hlocal. }
  split.
  - intros Hfail. destruct Hres as [Hres|Hres]; [|congruence].
    rewrite Hres in Hfail |- *.
    destruct reply as [text|msg]; [discriminate|]. now exists msg.
  - intros text Hreply. destruct Hres as [Hres|Hres]; [|exact Hres].
    now rewrite Hres, Hreply.
Qed.

Lemma request_fails_only_locally_witness :
  exists msg,
    Raised "connection refused" = Raised msg
    /\ result (fst (run (route_request paid_router env_local_down
                           "fix this bug" None) empty_world))
       = Failure msg true.
Proof.
  apply (request_fails_only_locally paid_router env_local_down
           "fix this bug" None empty_world).
  vm_compute. reflexivity.
Defined.

Lemma call_claude_failure_ledger (self : SmartAIRouter) (env : Env)
    (prompt : string) (w : World) :
  success (fst (run (call_claude self env prompt) w)) = false ->
  budget_file (snd (run (call_claude self env prompt) w)) = budget_file w.
Proof.
  destruct (call_claude_exits self env prompt w)
    as [[_ Hout]|[(msg & _ & Hout)|(text & kept & _ & _ & _ & _ & Hout)]];
    rewrite Hout; cbn [fst snd success]; [reflexivity..|discriminate].
Qed.

(** What [call_claude] appends to the trace. *)
Lemma call_claude_trace (self : SmartAIRouter) (env : Env) (prompt : string)
    (w : World) :
  let out := run (call_claude self env prompt) w in
  (trace (snd out) = trace w /\ success (fst out) = false)
  \/ (trace (snd out) = (trace w ++ [ClaudeCall prompt])%list
      /\ success (fst out) = false)
  \/ (exists kept,
        trace (snd out)
        = (trace w ++ [ClaudeCall prompt; BudgetWrite kept])%list
        /\ success (fst out) = true).
Proof.
  cbv zeta.
  destruct (call_claude_exits self env prompt w)
    as [[_ Hout]|[(msg & _ & Hout)|(text & kept & _ & _ & _ & _ & Hout)]];
    rewrite Hout; cbn [fst snd success log trace].
  - left. split; reflexivity.
  - right. left. split; reflexivity.
  - right. right. exists kept. rewrite <- app_assoc. split; reflexivity.
Qed.

Lemma count_app (kind : Event -> bool) (t1 t2 : list Event) :
  count kind (t1 ++ t2) = count kind t1 + count kind t2.
Proof. unfold count. now rewrite List.filter_app, length_app. Qed.

(** One request does little to the world: [route_request] appends to the
    trace at least one and at most two backend requests, at most one of
    them to the paid API, and at most one ledger write, which is there
    only together with a paid request. *)
Theorem route_request_effect_bounds (self : SmartAIRouter) (env : Env)
    (prompt : string) (force_model : option string) (w : World) :
  let out := run (route_request self env prompt force_model) w in
  exists new,
    trace (snd out) = (trace w ++ new)%list
    /\ 1 <= count is_backend_call new <= 2
    /\ count is_claude_call new <= 1
    /\ count is_budget_write new <= count is_claude_call new.
Proof.
  intros out.
  pose proof (route_request_unfold self env prompt force_model w) as H.
  cbv zeta in H. fold out in H.
  apply (f_equal snd) in H. cbn [snd] in H.
  pose proof (call_claude_trace self env prompt w) as Hc. cbv zeta in Hc.
  pose proof (call_claude_always_falls_back self env prompt w) as Hfb.
  destruct (fst (fst (run (choose_backend self env prompt force_model) w))).
  - destruct Hc as [[Ht Hs]|[[Ht Hs]|(kept & Ht & Hs)]].
    + rewrite Hs, (Hfb Hs) in H. cbn [negb andb] in H.
      rewrite call_ollama_world in H.
      exists [OllamaCall "mistral" prompt].
      rewrite H. cbn [log trace]. rewrite Ht. split; [reflexivity|].
      cbn. lia.
    + rewrite Hs, (Hfb Hs) in H. cbn [negb andb] in H.
      rewrite call_ollama_world in H.
      exists [ClaudeCall prompt; OllamaCall "mistral" prompt].
      rewrite H. cbn [log trace]. rewrite Ht, <- app_assoc.
      split; [reflexivity|]. cbn. lia.
    + rewrite Hs in H. cbn [negb andb] in H.
      exists [ClaudeCall prompt; BudgetWrite kept].
      rewrite H, Ht. split; [reflexivity|]. cbn. lia.
  - rewrite call_ollama_world in H.
    exists [OllamaCall "mistral" prompt]. rewrite H. cbn [log trace].
    split; [reflexivity|]. cbn. lia.
Qed.

Lemma status_ignores_trace (self : SmartAIRouter) (env : Env) (ev : Event)
    (w : World) :
  get_budget_status self env (log ev w) = get_budget_status self env w.
Proof. reflexivity. Qed.

(** The budget snapshot attached to a result is read after the backend
    call.  For a paid request that is answered, in a ledger with no month
    later than the current one: when the ledger can be written the
    snapshot already shows the cost of that very request added to the
    previous [spent], and one request more; when the write raises the
    result is the local backend's and the snapshot is the status before
    the request. *)
Theorem snapshot_includes_own_cost (self : SmartAIRouter) (env : Env)
    (prompt text : string) (force_model : option string) (w : World) :
  (forall k, is_Some (load_budget w !! k) -> String.le k (now_month env)) ->
  fst (fst (run (choose_backend self env prompt force_model) w)) = true ->
  claude_client self = true ->
  claude_api env prompt = Returned text ->
  let out := run (route_request self env prompt force_model) w in
  let before := get_budget_status self env w in
  match budget_open env with
  | None =>
      result (fst out)
      = Success text "claude-3-sonnet"
          (estimate_cost (config self) prompt text)
          (estimate_tokens prompt) (estimate_tokens text)
      /\ Status.spent (budget_status (fst out))
         = (Status.spent before + estimate_cost (config self) prompt text)%float
      /\ Status.requests (budget_status (fst out))
         = (Status.requests before + 1)%Z
  | Some _ =>
      result (fst out)
      = fst (run (call_ollama self env prompt "mistral") w)
      /\ budget_status (fst out) = before
  end.
Proof.
  intros Hmax Hpaid Hclient Hreply out before.
  pose proof (route_request_unfold self env prompt force_model w) as H.
  cbv zeta in H. fold out in H. rewrite Hpaid in H.
  destruct (route_request_annotations self env prompt force_model w)
    as [Hsnap _].
  fold out in Hsnap. rewrite Hsnap.
  destruct (budget_open env) as [msg|] eqn:Hopen.
  - rewrite (call_claude_write_raises self env prompt text msg w
               Hclient Hreply Hopen) in H.
    cbn [fst snd success get_fallback negb andb] in H.
    pose proof (f_equal fst H) as H1. pose proof (f_equal snd H) as H2.
    cbn [fst snd] in H1, H2. rewrite H1, H2, call_ollama_world.
    split; [now rewrite !call_ollama_cases | reflexivity].
  - rewrite (call_claude_recorded self env prompt text w
               Hclient Hreply Hopen) in H.
    cbn [fst snd success negb andb] in H.
    pose proof (f_equal fst H) as H1. pose proof (f_equal snd H) as H2.
    cbn [fst snd] in H1, H2. rewrite H1, H2.
    split; [reflexivity|].
    assert (Hmax' : forall k,
      is_Some (load_budget (log (ClaudeCall prompt) w) !! k) ->
      String.le k (now_month env)) by exact Hmax.
    destruct (update_budget_latest self env
                (estimate_cost (config self) prompt text)
                _ Hopen Hmax') as (Hcur & _ & _).
    destruct (status_of_stored_month self env _ _ Hcur) as [Hs Hr].
    rewrite Hs, Hr, status_ignores_trace. split; reflexivity.
Qed.

Lemma snapshot_includes_own_cost_witness :
  Status.spent
    (budget_status
       (fst (run (route_request paid_router env_up
                    "design the system architecture" None)
                 (world_with "2025-01"
                    {| spent := 1.5%float; requests := 3 |}))))
  = (1.5 + estimate_cost default_config "design the system architecture"
                         "paid answer")%float
  /\ budget_status
       (fst (run (route_request paid_router env_default_path
                    "design the system architecture" None) empty_world))
     = get_budget_status paid_router env_default_path empty_world.
Proof.
  split.
  - destruct (snapshot_includes_own_cost paid_router env_up
                "design the system architecture" "paid answer" None
                (world_with "2025-01" {| spent := 1.5%float; requests := 3 |}))
      as (_ & H & _); [| vm_compute; reflexivity | reflexivity | reflexivity
                       | exact H].
    intros k [e Hk]. cbn in Hk.
    apply lookup_singleton_Some in Hk as [<- _]. vm_compute. exact I.
  - destruct (snapshot_includes_own_cost paid_router env_default_path
                "design the system architecture" "paid answer" None
                empty_world)
      as (_ & H); [| vm_compute; reflexivity | reflexivity | reflexivity
                   | exact H].
    intros k [e Hk]. cbn in Hk. now rewrite lookup_empty in Hk.
Defined.

(** The routing reason is the reason of the decision, also when another
    backend answered: when the paid backend was chosen, its call failed
    and the local endpoint answered, the result names the local model
    while [routing_reason] still gives the reason for the paid backend. *)
Theorem reason_survives_fallback (self : SmartAIRouter) (env : Env)
    (prompt text : string) (force_model : option string) (w : World) :
  fst (fst (run (choose_backend self env prompt force_model) w)) = true ->
  success (fst (run (call_claude self env prompt) w)) = false ->
  ollama_api env (ollama_base_url (config self) ++ "/api/generate")
             "mistral" prompt = Returned text ->
  let out := run (route_request self env prompt force_model) w in
  result (fst out) = Success text "ollama-mistral" 0.0%float 0 0
  /\ routing_reason (fst out)
     = snd (fst (run (choose_backend self env prompt force_model) w))
  /\ budget_status (fst out) = get_budget_status self env w.
Proof.
  intros Hpaid Hfail Hreply out.
  pose proof (route_request_unfold self env prompt force_model w) as H.
  cbv zeta in H. fold out in H.
  rewrite Hpaid, Hfail, (call_claude_always_falls_back _ _ _ _ Hfail) in H.
  cbn [negb andb] in H. rewrite call_ollama_cases, Hreply in H.
  pose proof (f_equal fst H) as H1. pose proof (f_equal snd H) as H2.
  cbn [fst snd] in H1, H2.
  destruct (route_request_annotations self env prompt force_model w)
    as [Hsnap Hreason].
  fold out in Hsnap, Hreason.
  split; [exact H1|]. split; [exact Hreason|].
  rewrite Hsnap, H2, status_ignores_trace.
  pose proof (call_claude_failure_ledger self env prompt w Hfail) as Hfile.
  unfold get_budget_status, load_budget. now rewrite Hfile.
Qed.

Lemma reason_survives_fallback_witness :
  result (fst (run (route_request paid_router env_paid_down
                      "design the system architecture" None) empty_world))
  = Success "local answer" "ollama-mistral" 0.0%float 0 0
  /\ routing_reason
       (fst (run (route_request paid_router env_paid_down
                    "design the system architecture" None) empty_world))
     = "Komplexe Task - Claude erforderlich".
Proof.
  destruct (reason_survives_fallback paid_router env_paid_down
              "design the system architecture" "local answer" None
              empty_world) as (H1 & H2 & _);
    [vm_compute; reflexivity | reflexivity | reflexivity |].
  split; [exact H1 | exact H2].
Defined.

(** ** The configuration file *)

Lemma update_defaults_dump (cfg : Config) :
  update_defaults (dump_config cfg) = cfg.
Proof. now destruct cfg. Qed.

(** Loading the configuration settles after the first use: with no file
    [load_config] returns the defaults and creates the file; with a file it
    leaves the disk as it is; and a second [load_config] returns what the
    first returned and changes nothing. *)
Theorem load_config_settles (d : Disk) :
  let first := load_config d in
  (config_file d = None ->
   fst first = default_config
   /\ config_file (snd first) = Some (dump_config default_config))
  /\ (is_Some (config_file d) -> snd first = d)
  /\ world (snd first) = world d
  /\ load_config (snd first) = first.
Proof.
  cbv zeta. unfold load_config.
  destruct d as [[file|] w]; cbn.
  - split; [discriminate|]. repeat split; reflexivity.
  - split; [intros _; split; reflexivity|].
    split; [intros [? ?]; discriminate|]. split; [reflexivity|].
    now rewrite update_defaults_dump.
Qed.

(** What [save_config] writes, [load_config] reads back: a router built
    after [save_config] has the saved configuration, and a paid client
    exactly when the saved key is not empty. *)
Theorem save_then_new_router (self : SmartAIRouter) (d : Disk) :
  let saved := snd (save_config self d) in
  fst (new_router saved) = init (config self)
  /\ snd (new_router saved) = saved
  /\ (claude_client (fst (new_router saved)) = true
      <-> claude_api_key (config self) <> "").
Proof.
  cbv zeta. unfold new_router, save_config, load_config, mbind, D_bind,
    mret, D_ret. cbn. rewrite update_defaults_dump.
  split; [reflexivity|]. split; [reflexivity|].
  destruct (String.eqb_spec (claude_api_key (config self)) "") as [->|Hne];
    cbn; split; congruence.
Qed.

(** [setup_config] tests the paid API with the client of the router it
    has just built from the old configuration.  When that configuration
    had no key (no file, no key in it, or an empty key), the test fails
    with "Claude API key nicht konfiguriert" and the paid API is not
    requested, whatever key is being set up; the key is saved all the
    same. *)
Theorem setup_config_tests_stale_client (env : Env) (key : string)
    (d : Disk) :
  match config_file d with
  | Some file => file_claude_api_key file = None
                 \/ file_claude_api_key file = Some ""
  | None => True
  end ->
  let out := setup_config env key d in
  snd (fst out) = Failure "Claude API key nicht konfiguriert" true
  /\ trace (world (snd out))
     = (trace (world d) ++ [OllamaCall "mistral" "Hello, test message"])%list
  /\ claude_api_key (fst (load_config (snd out))) = key.
Proof.
  intros Hold.
  assert (Hclient : claude_client (fst (new_router d)) = false).
  { unfold new_router, load_config, mbind, D_bind, mret, D_ret.
    destruct (config_file d) as [file|]; [|reflexivity].
    cbn. unfold update_defaults, init. cbn.
    destruct Hold as [-> | ->]; reflexivity. }
  cbv zeta. unfold setup_config, mbind, D_bind, mret, D_ret.
  destruct (new_router d) as [router d1] eqn:Hnew.
  cbn [fst] in Hclient.
  assert (Hw : world d1 = world d).
  { revert Hnew. unfold new_router, load_config, mbind, D_bind, mret, D_ret.
    destruct (config_file d); intros [= <- <-]; reflexivity. }
  unfold save_config, lift. cbn [world config_file].
  pose proof (call_ollama_cases (set_api_key router key) env
                "Hello, test message" "mistral" (world d1)) as Ho.
  unfold run in Ho. rewrite Ho.
  pose proof (call_claude_cases (set_api_key router key) env
                "Hello, test message"
                (log (OllamaCall "mistral" "Hello, test message") (world d1)))
    as Hc.
  unfold run in Hc. cbn [world config_file]. rewrite Hc.
  cbn [set_api_key claude_client]. rewrite Hclient. cbn [fst snd world].
  split; [reflexivity|]. rewrite Hw. split; [reflexivity|].
  unfold load_config. cbn. reflexivity.
Qed.

Lemma setup_config_tests_stale_client_witness :
  snd (fst (setup_config env_up "sk-secret"
              {| config_file := None; world := empty_world |}))
  = Failure "Claude API key nicht konfiguriert" true.
Proof.
  apply (setup_config_tests_stale_client env_up "sk-secret"
           {| config_file := None; world := empty_world |}).
  exact I.
Defined.

(** Where the result of [route_request] comes from. *)
Lemma route_request_result (self : SmartAIRouter) (env : Env)
    (prompt : string) (force_model : option string) (w : World) :
  let out := run (route_request self env prompt force_model) w in
  let reply :=
    ollama_api env (ollama_base_url (config self) ++ "/api/generate")
               "mistral" prompt in
  (exists text tokens_in tokens_out cost,
     claude_api env prompt = Returned text
     /\ result (fst out)
        = Success text "claude-3-sonnet" cost tokens_in tokens_out)
  \/ (exists text, reply = Returned text
      /\ result (fst out) = Success text "ollama-mistral" 0.0%float 0 0)
  \/ (exists msg, reply = Raised msg /\ result (fst out) = Failure msg true).
Proof.
  intros out reply.
  pose proof (route_request_unfold self env prompt force_model w) as H.
  cbv zeta in H. fold out in H. apply (f_equal fst) in H. cbn [fst] in H.
  assert (Hlocal : forall w1,
    (exists text, reply = Returned text
       /\ fst (run (call_ollama self env prompt "mistral") w1)
          = Success text "ollama-mistral" 0.0%float 0 0)
    \/ (exists msg, reply = Raised msg
        /\ fst (run (call_ollama self env prompt "mistral") w1)
           = Failure msg true)).
  { intros w1. rewrite call_ollama_cases. cbn [fst]. fold reply.
    destruct reply as [text|msg]; [left | right]; eauto. }
  destruct (fst (fst (run (choose_backend self env prompt force_model) w))).
  - destruct (call_claude_exits self env prompt w)
      as [[_ Hout]|[(msg & _ & Hout)
                   |(text & kept & _ & Hreply & _ & _ & Hout)]];
      rewrite Hout in H; cbn [fst snd success get_fallback negb andb] in H.
    + right. rewrite H. apply Hlocal.
    + right. rewrite H. apply Hlocal.
    + left. eexists _, _, _, _. split; [exact Hreply | exact H].
  - right. rewrite H. apply Hlocal.
Qed.

Lemma new_router_world (d : Disk) :
  world (snd (new_router d)) = world d
  /\ is_Some (config_file (snd (new_router d))).
Proof.
  unfold new_router, load_config, mbind, D_bind, mret, D_ret.
  destruct (config_file d) eqn:E; cbn; rewrite ?E; split; eauto.
Qed.

(** [route_prompt] returns the text of the backend that answered, or
    "Fehler: " followed by the error of the local endpoint; an error of
    the paid API is never reported.  It leaves a configuration file
    behind. *)
Theorem route_prompt_output (env : Env) (prompt : string)
    (force_model : option string) (d : Disk) :
  let out := route_prompt env prompt force_model d in
  let router := fst (new_router d) in
  let reply :=
    ollama_api env (ollama_base_url (config router) ++ "/api/generate")
               "mistral" prompt in
  ((exists text, claude_api env prompt = Returned text /\ fst out = text)
   \/ (exists text, reply = Returned text /\ fst out = text)
   \/ (exists msg, reply = Raised msg /\ fst out = "Fehler: " ++ msg))
  /\ is_Some (config_file (snd out)).
Proof.
  cbv zeta. unfold route_prompt, create_router_instance, mbind, D_bind,
    mret, D_ret.
  destruct (new_router_world d) as [Hw Hfile].
  destruct (new_router d) as [router d1]. cbn [fst snd] in *.
  unfold lift.
  pose proof (route_request_result router env prompt force_model (world d1))
    as H. cbv zeta in H. unfold run in H.
  destruct (route_request router env prompt force_model (world d1))
    as [routed w']. cbn [fst snd config_file] in *.
  split; [|exact Hfile].
  destruct H as [(text & ti & to & cost & Hreply & ->)
                |[(text & Hreply & ->)|(msg & Hreply & ->)]].
  - left. eauto.
  - right. left. eauto.
  - right. right. eauto.
Qed.

(** What [route_request] appends to the trace. *)
Lemma route_request_trace_cases (self : SmartAIRouter) (env : Env)
    (prompt : string) (force_model : option string) (w : World) :
  let out := run (route_request self env prompt force_model) w in
  trace (snd out) = (trace w ++ [OllamaCall "mistral" prompt])%list
  \/ trace (snd out)
     = (trace w ++ [ClaudeCall prompt; OllamaCall "mistral" prompt])%list
  \/ exists kept,
       trace (snd out)
       = (trace w ++ [ClaudeCall prompt; BudgetWrite kept])%list.
Proof.
  intros out.
  pose proof (route_request_unfold self env prompt force_model w) as H.
  cbv zeta in H. fold out in H.
  apply (f_equal snd) in H. cbn [snd] in H.
  pose proof (call_claude_trace self env prompt w) as Hc. cbv zeta in Hc.
  pose proof (call_claude_always_falls_back self env prompt w) as Hfb.
  destruct (fst (fst (run (choose_backend self env prompt force_model) w))).
  - destruct Hc as [[Ht Hs]|[[Ht Hs]|(kept & Ht & Hs)]].
    + rewrite Hs, (Hfb Hs) in H. cbn [negb andb] in H.
      rewrite call_ollama_world in H. left.
      rewrite H. cbn [log trace]. now rewrite Ht.
    + rewrite Hs, (Hfb Hs) in H. cbn [negb andb] in H.
      rewrite call_ollama_world in H. right. left.
      rewrite H. cbn [log trace]. now rewrite Ht, <- app_assoc.
    + rewrite Hs in H. cbn [negb andb] in H. right. right.
      exists kept. now rewrite H, Ht.
  - rewrite call_ollama_world in H. left. now rewrite H.
Qed.

(** ** The HTTP adapter *)

(** A POST to another path, or with no messages, is answered without any
    backend request: 404 "Not Found" for the path, 500 "Server Error: No
    messages provided" for the empty list; the world stays as it was. *)
Theorem serve_POST_rejects_without_backend (env : Env) (now : Z)
    (path : string) (messages : list Message) (d : Disk) :
  path <> "/v1/chat/completions" \/ messages = [] ->
  let out := serve_POST env now path messages d in
  world (snd out) = world d
  /\ fst out
     = if String.eqb path "/v1/chat/completions"
       then SendError 500 "Server Error: No messages provided"
       else SendError 404 "Not Found".
Proof.
  intros Hbad. cbv zeta.
  unfold serve_POST, mbind, D_bind, mret, D_ret.
  destruct (new_router_world d) as [Hw _].
  destruct (new_router d) as [router d1]. cbn [fst snd] in *.
  unfold lift, do_POST.
  destruct (String.eqb_spec path "/v1/chat/completions") as [->|Hne].
  - destruct Hbad as [Hbad| ->]; [contradiction|].
    cbn. now rewrite Hw.
  - cbn. now rewrite Hw.
Qed.

Lemma serve_POST_rejects_without_backend_witness :
  fst (serve_POST env_up 0 "/v1/chat/completions" []
         {| config_file := None; world := empty_world |})
  = SendError 500 "Server Error: No messages provided".
Proof.
  apply (serve_POST_rejects_without_backend env_up 0 "/v1/chat/completions"
           [] {| config_file := None; world := empty_world |}).
  right. reflexivity.
Defined.

(** Only the empty list is rejected.  Messages that all lack a content,
    or have an empty one, make the empty prompt, and a backend is
    requested with it. *)
Theorem serve_POST_passes_empty_prompt (env : Env) (now : Z)
    (messages : list Message) (d : Disk) :
  messages <> [] ->
  contents messages = [] ->
  let out := serve_POST env now "/v1/chat/completions" messages d in
  exists new,
    trace (world (snd out)) = (trace (world d) ++ new)%list
    /\ (OllamaCall "mistral" "" ∈ new \/ ClaudeCall "" ∈ new).
Proof.
  intros Hne Hempty. cbv zeta.
  unfold serve_POST, mbind, D_bind, mret, D_ret.
  destruct (new_router_world d) as [Hw _].
  destruct (new_router d) as [router d1]. cbn [fst snd] in *.
  unfold lift, do_POST. cbn [String.eqb Ascii.eqb Bool.eqb].
  change ("/v1/chat/completions" =? "/v1/chat/completions")%string with true.
  cbn iota. unfold handle_chat_completion.
  destruct messages as [|m messages]; [contradiction|].
  rewrite Hempty. cbn [join texts_from String.concat].
  unfold mbind, M_bind, mret, M_ret.
  pose proof (route_request_trace_cases router env "" None (world d1)) as H.
  cbv zeta in H. unfold run in H.
  destruct (route_request router env "" None (world d1)) as [routed w'].
  cbn [fst snd world] in *. rewrite Hw in H.
  destruct H as [->|[->|[kept ->]]]; eexists; (split; [reflexivity|]).
  - left. apply list_elem_of_here.
  - right. apply list_elem_of_here.
  - right. apply list_elem_of_here.
Qed.

Lemma serve_POST_passes_empty_prompt_witness :
  exists new,
    trace (world (snd (serve_POST env_up 0 "/v1/chat/completions"
                         [{| role := "user"; content := Some (Text "") |};
                          {| role := "system"; content := None |}]
                         {| config_file := None; world := empty_world |})))
    = (trace (world {| config_file := None; world := empty_world |})
       ++ new)%list
    /\ (OllamaCall "mistral" "" ∈ new \/ ClaudeCall "" ∈ new).
Proof.
  apply (serve_POST_passes_empty_prompt env_up 0
           [{| role := "user"; content := Some (Text "") |};
            {| role := "system"; content := None |}]
           {| config_file := None; world := empty_world |}).
  - discriminate.
  - reflexivity.
Defined.



(** ** The file workflow *)

Lemma lower_app (a b : string) : lower (a ++ b) = lower a ++ lower b.
Proof.
  induction a as [|c a IH]; [reflexivity|].
  change (lower (String c a ++ b))
    with (String (lower_ascii c) (lower (a ++ b))).
  rewrite IH. reflexivity.
Qed.

Lemma str_in_app_r (keyword a b : string) :
  str_in keyword b = true -> str_in keyword (a ++ b) = true.
Proof.
  intros H. induction a as [|c a IH]; [exact H|].
  change (str_in keyword (String c a ++ b))
    with (String.prefix keyword (String c (a ++ b))
          || str_in keyword (a ++ b)).
  rewrite IH. apply orb_true_r.
Qed.

Lemma code_prompt_has_code (content : string) (input_path : Path) :
  str_in "code" (lower (create_prompt content "code" input_path)) = true.
Proof.
  change (create_prompt content "code" input_path)
    with (base_context content "code" (path_name input_path) ++ code_template).
  rewrite lower_app. apply str_in_app_r. vm_compute. reflexivity.
Qed.

(** What [process_file_request] does once the request is routed. *)
Lemma process_file_request_routed (router : SmartAIRouter) (env : Env)
    (fmt : Format) (input_path output_path : Path)
    (task_type content : string) (s : FS) :
  files s !! path_str input_path = Some content ->
  let resolved := resolve_task_type task_type input_path in
  let routed :=
    run (route_request router env
           (create_prompt content resolved input_path)
           (force_model_of resolved)) (fs_world s) in
  let out :=
    process_file_request router env fmt input_path output_path task_type s in
  fs_world (snd out) = snd routed
  /\ fst out = success (result (fst routed))
  /\ files (snd out)
     = match format_output fmt (fst routed) resolved input_path with
       | Some text =>
           if success (result (fst routed))
           then <[path_str output_path := text]> (files s)
           else files s
       | None => files s
       end.
Proof.
  intros Hfile. cbv zeta. unfold process_file_request. rewrite Hfile.
  destruct (run (route_request router env
                   (create_prompt content
                      (resolve_task_type task_type input_path) input_path)
                   (force_model_of (resolve_task_type task_type input_path)))
                (fs_world s)) as [routed w].
  cbn [fst snd]. unfold format_output.
  destruct (result routed); cbn [success]; repeat split; reflexivity.
Qed.

(** The workflow writes its output exactly when the routed request
    succeeded.  With no input file nothing happens at all.  Otherwise the
    request built from the file is routed once, the return value is the
    success of its result, and the files are as they were after a failure,
    while after a success the output file, and no other, holds the
    formatted header followed by the response. *)
Theorem output_written_iff_success (router : SmartAIRouter) (env : Env)
    (fmt : Format) (input_path output_path : Path) (task_type : string)
    (s : FS) :
  let out :=
    process_file_request router env fmt input_path output_path task_type s in
  match files s !! path_str input_path with
  | None => out = (false, s)
  | Some content =>
      let resolved := resolve_task_type task_type input_path in
      let routed :=
        run (route_request router env
               (create_prompt content resolved input_path)
               (force_model_of resolved)) (fs_world s) in
      fs_world (snd out) = snd routed
      /\ fst out = success (result (fst routed))
      /\ match result (fst routed) with
         | Success response _ _ _ _ =>
             exists header,
               format_output fmt (fst routed) resolved input_path
               = Some (header ++ response)
               /\ files (snd out)
                  = <[path_str output_path := header ++ response]> (files s)
         | Failure _ _ => files (snd out) = files s
         end
  end.
Proof.
  cbv zeta.
  destruct (files s !! path_str input_path) as [content|] eqn:Hfile.
  - destruct (process_file_request_routed router env fmt input_path
                output_path task_type content s Hfile) as (Hw & Hret & Hfiles).
    split; [exact Hw|]. split; [exact Hret|].
    rewrite Hfiles. unfold format_output.
    destruct (result (fst (run (route_request router env _ _) (fs_world s))));
      cbn [success]; [|reflexivity].
    eexists. split; reflexivity.
  - unfold process_file_request. now rewrite Hfile.
Qed.

Lemma output_written_iff_success_witness :
  process_file_request paid_router env_up
    {| timestamp := "2025-01-15 10:00:00";
       fixed4 := fun _ => "0.0000"; fixed2 := fun _ => "5.00" |}
    {| path_str := "features/missing.py"; path_name := "missing.py" |}
    {| path_str := "features/out.md"; path_name := "out.md" |}
    "code"
    {| files := ∅; fs_world := empty_world |}
  = (false, {| files := ∅; fs_world := empty_world |})
  /\ fst (process_file_request paid_router env_local_down
            {| timestamp := "2025-01-15 10:00:00";
               fixed4 := fun _ => "0.0000"; fixed2 := fun _ => "5.00" |}
            {| path_str := "features/vrp_core.py"; path_name := "vrp_core.py" |}
            {| path_str := "features/out.md"; path_name := "out.md" |}
            "code"
            {| files := {[ "features/vrp_core.py" := "x = 1" ]};
               fs_world := empty_world |})
     = false.
Proof.
  split.
  - pose proof (output_written_iff_success paid_router env_up
             {| timestamp := "2025-01-15 10:00:00";
                fixed4 := fun _ => "0.0000"; fixed2 := fun _ => "5.00" |}
             {| path_str := "features/missing.py"; path_name := "missing.py" |}
             {| path_str := "features/out.md"; path_name := "out.md" |}
             "code" {| files := ∅; fs_world := empty_world |}) as H.
    cbv zeta in H. cbn [files path_str] in H. rewrite lookup_empty in H.
    exact H.
  - pose proof (output_written_iff_success paid_router env_local_down
             {| timestamp := "2025-01-15 10:00:00";
                fixed4 := fun _ => "0.0000"; fixed2 := fun _ => "5.00" |}
             {| path_str := "features/vrp_core.py"; path_name := "vrp_core.py" |}
             {| path_str := "features/out.md"; path_name := "out.md" |}
             "code"
             {| files := {[ "features/vrp_core.py" := "x = 1" ]};
                fs_world := empty_world |}) as H.
    cbv zeta in H. cbn [files path_str] in H.
    rewrite lookup_singleton_eq in H.
    destruct H as (_ & H & _). rewrite H. vm_compute. reflexivity.
Defined.

(** With "code" among the force-local keywords, as in the default
    configuration, a code task never reaches the paid API: whatever the
    file holds and whatever the budget is, the one request goes to the
    local backend and the ledger file is not touched.  The prompt built
    for a code task itself contains the word. *)
Theorem code_task_stays_local (router : SmartAIRouter) (env : Env)
    (fmt : Format) (input_path output_path : Path)
    (task_type content : string) (s : FS) :
  In "code" (ollama_keywords (config router)) ->
  files s !! path_str input_path = Some content ->
  resolve_task_type task_type input_path = "code" ->
  let out :=
    process_file_request router env fmt input_path output_path task_type s in
  trace (fs_world (snd out))
  = (trace (fs_world s)
     ++ [OllamaCall "mistral" (create_prompt content "code" input_path)])%list
  /\ budget_file (fs_world (snd out)) = budget_file (fs_world s).
Proof.
  intros Hkw Hfile Hcode out.
  destruct (process_file_request_routed router env fmt input_path
              output_path task_type content s Hfile) as (Hw & _ & _).
  fold out in Hw. rewrite Hw, Hcode.
  change (force_model_of "code") with (@None string).
  set (prompt := create_prompt content "code" input_path).
  pose proof (route_request_unfold router env prompt None (fs_world s)) as H.
  cbv zeta in H.
  assert (Hlocal : fst (fst (run (choose_backend router env prompt None)
                               (fs_world s))) = false).
  { apply (local_match_routes_local router env prompt (fs_world s)).
    apply any_in_true. exists "code". split; [exact Hkw|].
    apply code_prompt_has_code. }
  rewrite Hlocal in H. apply (f_equal snd) in H. cbn [snd] in H.
  rewrite call_ollama_world in H. rewrite H. split; reflexivity.
Qed.

Lemma code_task_stays_local_witness :
  trace (fs_world (snd (process_file_request paid_router env_up
           {| timestamp := "2025-01-15 10:00:00";
              fixed4 := fun _ => "0.0000"; fixed2 := fun _ => "5.00" |}
           {| path_str := "features/vrp_core.py"; path_name := "vrp_core.py" |}
           {| path_str := "features/out.md"; path_name := "out.md" |}
           "auto"
           {| files := {[ "features/vrp_core.py" := "design the architecture" ]};
              fs_world := empty_world |})))
  = [OllamaCall "mistral"
       (create_prompt "design the architecture" "code"
          {| path_str := "features/vrp_core.py"; path_name := "vrp_core.py" |})].
Proof.
  apply (code_task_stays_local paid_router env_up
           {| timestamp := "2025-01-15 10:00:00";
              fixed4 := fun _ => "0.0000"; fixed2 := fun _ => "5.00" |}
           {| path_str := "features/vrp_core.py"; path_name := "vrp_core.py" |}
           {| path_str := "features/out.md"; path_name := "out.md" |}
           "auto" "design the architecture").
  - cbn. tauto.
  - apply lookup_singleton_eq.
  - vm_compute. reflexivity.
Defined.

(** A request forced to "claude", by the exit of the paid call. *)
Lemma route_forced_claude (self : SmartAIRouter) (env : Env)
    (prompt text : string) (w : World) :
  claude_client self = true ->
  claude_api env prompt = Returned text ->
  let out := run (route_request self env prompt (Some "claude")) w in
  match budget_open env with
  | None =>
      (result (fst out), snd out) = run (call_claude self env prompt) w
      /\ result (fst out)
         = Success text "claude-3-sonnet"
             (estimate_cost (config self) prompt text)
             (estimate_tokens prompt) (estimate_tokens text)
  | Some _ =>
      (result (fst out), snd out)
      = run (call_ollama self env prompt "mistral")
            (log (ClaudeCall prompt) w)
  end.
Proof.
  intros Hclient Hreply out.
  pose proof (route_request_unfold self env prompt (Some "claude") w) as H.
  cbv zeta in H. fold out in H.
  change (fst (fst (run (choose_backend self env prompt (Some "claude")) w)))
    with true in H.
  destruct (budget_open env) as [msg|] eqn:Hopen.
  - rewrite (call_claude_write_raises self env prompt text msg w
               Hclient Hreply Hopen) in H.
    cbn [fst snd success get_fallback negb andb] in H. exact H.
  - pose proof (call_claude_recorded self env prompt text w
                  Hclient Hreply Hopen) as Hrec.
    rewrite Hrec in H |- *. cbn [fst snd success negb andb] in H.
    split; [exact H|]. apply (f_equal fst) in H. exact H.
Qed.

(** Architecture and review tasks are forced to the paid backend, budget
    or not: with a client the paid API is requested.  When it answers and
    the ledger can be written, the workflow returns [True], the ledger is
    charged once, and the output file ends with the API's text; when the
    write raises, the answer is dropped, the local backend is requested
    after the paid one, the ledger file is as it was, and the return value
    is the success of the local call. *)
Theorem review_task_forces_paid (router : SmartAIRouter) (env : Env)
    (fmt : Format) (input_path output_path : Path)
    (task_type content text : string) (s : FS) :
  files s !! path_str input_path = Some content ->
  resolve_task_type task_type input_path = "architecture"
  \/ resolve_task_type task_type input_path = "review" ->
  claude_client router = true ->
  claude_api env
    (create_prompt content (resolve_task_type task_type input_path) input_path)
  = Returned text ->
  let prompt :=
    create_prompt content (resolve_task_type task_type input_path)
                  input_path in
  let out :=
    process_file_request router env fmt input_path output_path task_type s in
  match budget_open env with
  | None =>
      fst out = true
      /\ count is_budget_write (trace (fs_world (snd out)))
         = count is_budget_write (trace (fs_world s)) + 1
      /\ exists header,
           files (snd out)
           = <[path_str output_path := header ++ text]> (files s)
  | Some _ =>
      trace (fs_world (snd out))
      = (trace (fs_world s)
         ++ [ClaudeCall prompt; OllamaCall "mistral" prompt])%list
      /\ budget_file (fs_world (snd out)) = budget_file (fs_world s)
      /\ fst out
         = success (fst (run (call_ollama router env prompt "mistral")
                             (fs_world s)))
  end.
Proof.
  intros Hfile Hkind Hclient Hreply prompt out.
  destruct (process_file_request_routed router env fmt input_path
              output_path task_type content s Hfile) as (Hw & Hret & Hfiles).
  fold out in Hw, Hret, Hfiles. fold prompt in Hw, Hret, Hfiles.
  assert (Hforce : force_model_of (resolve_task_type task_type input_path)
                   = Some "claude").
  { destruct Hkind as [-> | ->]; reflexivity. }
  rewrite Hforce in Hw, Hret, Hfiles.
  pose proof (route_forced_claude router env prompt text (fs_world s)
                Hclient Hreply) as Hrun. cbv zeta in Hrun.
  destruct (budget_open env) as [msg|] eqn:Hopen.
  - pose proof (f_equal fst Hrun) as H1. pose proof (f_equal snd Hrun) as H2.
    cbn [fst snd] in H1, H2.
    rewrite Hw, Hret, H1, H2, call_ollama_world. cbn [log trace budget_file].
    rewrite <- app_assoc. split; [reflexivity|]. split; [reflexivity|].
    now rewrite !call_ollama_cases.
  - destruct Hrun as [Hrun Hres].
    pose proof (f_equal snd Hrun) as H2. cbn [snd] in H2.
    rewrite Hret, Hw, Hfiles. unfold format_output. rewrite Hres.
    cbn [success]. split; [reflexivity|]. split.
    + rewrite H2.
      pose proof (call_claude_failure_writes router env prompt (fs_world s))
        as Hwrites.
      rewrite Hwrites, <- (f_equal fst Hrun). cbn [fst]. now rewrite Hres.
    + eexists. reflexivity.
Qed.

Lemma review_task_forces_paid_witness :
  fst (process_file_request paid_router env_up
         {| timestamp := "2025-01-15 10:00:00";
            fixed4 := fun _ => "0.0000"; fixed2 := fun _ => "0.00" |}
         {| path_str := "docs/system_design.md"; path_name := "system_design.md" |}
         {| path_str := "docs/out.md"; path_name := "out.md" |}
         "auto"
         {| files := {[ "docs/system_design.md" := "fix this bug" ]};
            fs_world := world_with "2025-01"
                          {| spent := 5.0%float; requests := 9 |} |})
  = true
  /\ budget_file
       (fs_world
          (snd (process_file_request paid_router env_default_path
                  {| timestamp := "2025-01-15 10:00:00";
                     fixed4 := fun _ => "0.0000"; fixed2 := fun _ => "0.00" |}
                  {| path_str := "docs/system_design.md";
                     path_name := "system_design.md" |}
                  {| path_str := "docs/out.md"; path_name := "out.md" |}
                  "auto"
                  {| files := {[ "docs/system_design.md" := "fix this bug" ]};
                     fs_world := empty_world |})))
     = None.
Proof.
  split.
  - apply (review_task_forces_paid paid_router env_up
             {| timestamp := "2025-01-15 10:00:00";
                fixed4 := fun _ => "0.0000"; fixed2 := fun _ => "0.00" |}
             {| path_str := "docs/system_design.md";
                path_name := "system_design.md" |}
             {| path_str := "docs/out.md"; path_name := "out.md" |}
             "auto" "fix this bug" "paid answer").
    + apply lookup_singleton_eq.
    + left. vm_compute. reflexivity.
    + reflexivity.
    + reflexivity.
  - apply (review_task_forces_paid paid_router env_default_path
             {| timestamp := "2025-01-15 10:00:00";
                fixed4 := fun _ => "0.0000"; fixed2 := fun _ => "0.00" |}
             {| path_str := "docs/system_design.md";
                path_name := "system_design.md" |}
             {| path_str := "docs/out.md"; path_name := "out.md" |}
             "auto" "fix this bug" "paid answer"
             {| files := {[ "docs/system_design.md" := "fix this bug" ]};
                fs_world := empty_world |}).
    + apply lookup_singleton_eq.
    + left. vm_compute. reflexivity.
    + reflexivity.
    + reflexivity.
Defined.

Lemma load_config_settles_witness :
  fst (load_config {| config_file := None; world := empty_world |})
  = default_config
  /\ config_file
       (snd (load_config {| config_file := None; world := empty_world |}))
     = Some (dump_config default_config).
Proof.
  apply (load_config_settles {| config_file := None; world := empty_world |}).
  reflexivity.
Defined.
